(** * run_all_benchmarks.py: the benchmark-and-report pipeline

    A shallow embedding of [src/run_all_benchmarks.py] and the properties its
    specification states about it.

    Conventions of the embedding.
    - Python [int] is [Z]; Python [float] is modelled by exact rationals [Q].
      Where rounding decides a property, line 199 is given a second time in
      binary64 (module [B64], on the primitive floats) and a third time
      under an arbitrary rounding ([trial_gflops_rounded]).
    - Python exceptions are values of [exn]; a computation that may raise
      returns [exn + A], and code with effects lives in the monad [M], which
      threads a [world] holding the trace of effects performed so far.
    - Everything the program asks of its host (torch, psutil, platform, the
      clocks) is read from one record [env]; theorems quantify over it.
    - A multiplication, a synchronization, [os.makedirs] and the writing of a
      file are recorded in the trace and do not raise; allocation and the
      probes may raise, as the host decides.  What [main] prints is left out.
    - [json.dump] and [json.load] belong to Python's library; they are
      modelled after its documentation, on the tree of JSON values. *)

From Stdlib Require Import ZArith QArith Qround List String Ascii Bool Lia.
From Stdlib Require Import DecimalString Lqa.
From Stdlib Require DecimalFacts DecimalZ.
From Stdlib Require PrimFloat SpecFloat FloatOps.
Import ListNotations.

Set Warnings "-register-all".
Local Open Scope string_scope.
Local Open Scope list_scope.
Local Open Scope Z_scope.

(** ** Python values used by the program *)

Module Py.

(** Exceptions the program can meet.  [SystemExit] and [KeyboardInterrupt]
    derive from [BaseException] only, so [except Exception] lets them pass. *)
Inductive exn : Type :=
| ZeroDivisionError
| ValueError (msg : string)
| AttributeError (msg : string)
| RuntimeError (msg : string)
| OSError (msg : string)
| IndexError (msg : string)
| OverflowError (msg : string)
| SystemExit (code : Z)
| KeyboardInterrupt.

Definition is_Exception (e : exn) : bool :=
  match e with
  | SystemExit _ | KeyboardInterrupt => false
  | _ => true
  end.

(** [str(e)] *)
Definition str_exn (e : exn) : string :=
  match e with
  | ZeroDivisionError => "division by zero"
  | ValueError m | AttributeError m | RuntimeError m | OSError m
  | IndexError m | OverflowError m => m
  | SystemExit c => NilZero.string_of_int (Z.to_int c)
  | KeyboardInterrupt => ""
  end.

(** [str(n)] for an int *)
Definition str_int (n : Z) : string := NilZero.string_of_int (Z.to_int n).

(** [s.lower()], on the ASCII letters. *)
Definition lower_ascii (c : ascii) : ascii :=
  let n := nat_of_ascii c in
  if (65 <=? n)%nat && (n <=? 90)%nat then ascii_of_nat (n + 32) else c.

Fixpoint lower (s : string) : string :=
  match s with
  | EmptyString => EmptyString
  | String c r => String (lower_ascii c) (lower r)
  end.

(** [a / b]: true division raises on a zero divisor. *)
Definition truediv (a b : Q) : exn + Q :=
  if Qeq_bool b 0 then inl ZeroDivisionError else inr (a / b)%Q.

(** [sum(l)]: left to right, starting from 0. *)
Definition sum (l : list Q) : Q := fold_left Qplus l 0%Q.

Definition Qltb (a b : Q) : bool := negb (Qle_bool b a).

(** [min(l)]: keeps the first item unless a later one is strictly smaller. *)
Definition min (l : list Q) : exn + Q :=
  match l with
  | [] => inl (ValueError "min() arg is an empty sequence")
  | x :: r => inr (fold_left (fun m y => if Qltb y m then y else m) r x)
  end.

(** [max(l)]: keeps the first item unless a later one is strictly larger. *)
Definition max (l : list Q) : exn + Q :=
  match l with
  | [] => inl (ValueError "max() arg is an empty sequence")
  | x :: r => inr (fold_left (fun m y => if Qltb m y then y else m) r x)
  end.

(** [round(x, 2)]: two decimals, ties to even. *)
Definition round2 (x : Q) : Q :=
  let y := (x * 100)%Q in
  let f := Qfloor y in
  let r := (y - inject_Z f)%Q in
  let n := if Qltb r (1 # 2) then f
           else if Qltb (1 # 2) r then f + 1
           else if Z.even f then f else f + 1 in
  (inject_Z n / 100)%Q.

(** [l[i]] for an index that is not negative. *)
Definition index {A} (l : list A) (i : Z) : exn + A :=
  match nth_error l (Z.to_nat i) with
  | Some a => inr a
  | None => inl (IndexError "list index out of range")
  end.

(** The object graph [json.dump] accepts: dicts keep insertion order. *)
Inductive json : Type :=
| JNone
| JBool (b : bool)
| JInt (n : Z)
| JFloat (x : Q)
| JStr (s : string)
| JList (l : list json)
| JDict (d : list (string * json)).

Definition opt_json {A} (f : A -> json) (o : option A) : json :=
  match o with Some a => f a | None => JNone end.

End Py.
Import Py.

(** ** torch devices *)

Record device : Type := { dev_type : string; dev_index : option Z }.

Definition device_cpu : device := {| dev_type := "cpu"; dev_index := None |}.
Definition device_cuda : device := {| dev_type := "cuda"; dev_index := None |}.
Definition device_mps : device := {| dev_type := "mps"; dev_index := None |}.

(** [str(device)] *)
Definition str_device (d : device) : string :=
  match dev_index d with
  | None => dev_type d
  | Some i => (dev_type d ++ ":" ++ str_int i)%string
  end.

(** torch runs kernels on these device types asynchronously: a launch returns
    before the work is done, and only a synchronize call waits for it. *)
Definition is_async (d : device) : bool :=
  (dev_type d =? "cuda")%string || (dev_type d =? "mps")%string.

(** ** The host *)

Record cuda_props : Type :=
  { cp_name : string; cp_total_memory : Z; cp_major : Z; cp_minor : Z }.

Record psutil_module : Type :=
  { (* virtual_memory(): (total, available) *)
    ps_virtual_memory : exn + (Z * Z);
    (* cpu_count(logical=b) *)
    ps_cpu_count : bool -> exn + option Z }.

Record env : Type :=
  { (* torch.cuda.is_available() *)
    cuda_is_available : bool;
    (* torch.backends.mps: None when torch.backends has no attribute mps,
       Some b when it has and mps.is_available() returns b *)
    backends_mps : option bool;
    (* torch.device(s) for a string other than cpu, cuda, mps *)
    torch_device_other : string -> exn + device;
    torch_version : string;
    torch_version_cuda : option string;
    cuda_device_count : exn + Z;
    cuda_get_device_properties : Z -> exn + cuda_props;
    cuda_mem_get_info : exn + (Z * Z);
    cuda_get_device_name : Z -> exn + string;
    (* torch.randn((n, n), device=d), as the k-th allocation of the run:
       None when it succeeds, Some e when it raises e *)
    randn_error : nat -> device -> Z -> option exn;
    (* the imported psutil, None when the import failed *)
    psutil : option psutil_module;
    platform_system : string;
    platform_release : string;
    platform_machine : string;
    (* sys.version.split()[0] *)
    python_version : string;
    (* the k-th call of time.time() *)
    time_time : nat -> Q;
    (* the k-th call of datetime.utcnow(), as isoformat() and as
       strftime("%Y-%m-%dT%H-%M-%SZ") *)
    utcnow_isoformat : nat -> string;
    utcnow_strftime : nat -> string }.

(** [torch.device(s)] *)
Definition torch_device (E : env) (s : string) : exn + device :=
  if (s =? "cpu")%string then inr device_cpu
  else if (s =? "cuda")%string then inr device_cuda
  else if (s =? "mps")%string then inr device_mps
  else torch_device_other E s.

(** [hasattr(torch.backends, "mps") and torch.backends.mps.is_available()] *)
Definition mps_usable (E : env) : bool :=
  match backends_mps E with
  | Some b => b
  | None => false
  end.

(** ** pick_device *)

Definition pick_device (E : env) (pref : string) : exn + device :=
  let pref := lower pref in
  if negb (pref =? "auto")%string then torch_device E pref
  else if cuda_is_available E then torch_device E "cuda"
  else if mps_usable E then torch_device E "mps"
  else torch_device E "cpu".

(** ** Effects

    The world records, in order, the effects the program has performed, and
    how many times each clock has been read. *)

Record BenchRun : Type :=
  { run_idx : Z; run_device : string; run_size : Z; time_s : Q; run_gflops : Q }.

Inductive event : Type :=
| EvMakedirs (path : string)
| EvRandn (d : device) (n : Z)          (* a tensor of n x n was allocated on d *)
| EvMatmul                              (* a @ b was launched *)
| EvCudaSynchronize                     (* torch.cuda.synchronize() returned *)
| EvTime                                (* time.time() was read *)
| EvWriteJson (path : string) (doc : json) (pretty : bool)
| EvWriteBenchCsv (path : string) (rows : list BenchRun)
| EvWriteSystemCsv (path : string) (rows : list (string * json)).

Record world : Type :=
  { trace : list event; time_calls : nat; utc_calls : nat }.

Definition world0 : world := {| trace := []; time_calls := 0; utc_calls := 0 |}.

Definition M (A : Type) : Type := world -> world * (exn + A).

Definition ret {A} (a : A) : M A := fun w => (w, inr a).

Definition raise {A} (e : exn) : M A := fun w => (w, inl e).

Definition bind {A B} (m : M A) (k : A -> M B) : M B :=
  fun w => match m w with
           | (w', inr a) => k a w'
           | (w', inl e) => (w', inl e)
           end.

Definition lift {A} (r : exn + A) : M A := fun w => (w, r).

Definition emit (e : event) : M unit :=
  fun w => ({| trace := trace w ++ [e];
               time_calls := time_calls w;
               utc_calls := utc_calls w |}, inr tt).

Declare Scope m_scope.
Delimit Scope m_scope with M.
Notation "x <- m ;; k" := (bind m (fun x => k))
  (at level 100, m at next level, right associativity) : m_scope.
Notation "m ;; k" := (bind m (fun _ => k))
  (at level 100, right associativity) : m_scope.
Notation "'let?' x := e 'in' k" :=
  (match e with inr x => k | inl err => inl err end)
  (at level 10, x name, e at level 100, k at level 200).

(** [for i in idx: s = body(i, s)] *)
Fixpoint for_each {S} (idx : list Z) (body : Z -> S -> M S) (s : S) : M S :=
  match idx with
  | [] => ret s
  | i :: rest => bind (body i s) (for_each rest body)
  end.

(** [range(n)] *)
Definition range (n : Z) : list Z := map Z.of_nat (seq 0 (Z.to_nat n)).

(** [time.time()] *)
Definition time_now (E : env) : M Q :=
  fun w => ({| trace := trace w ++ [EvTime];
               time_calls := S (time_calls w);
               utc_calls := utc_calls w |}, inr (time_time E (time_calls w))).

(** [datetime.utcnow()], read through [fmt]. *)
Definition utcnow (fmt : nat -> string) : M string :=
  fun w => ({| trace := trace w;
               time_calls := time_calls w;
               utc_calls := S (utc_calls w) |}, inr (fmt (utc_calls w))).

Definition is_randn (e : event) : bool :=
  match e with EvRandn _ _ => true | _ => false end.

(** [torch.randn((n, n), device=d)]: torch refuses a negative dimension;
    otherwise the host decides whether the allocation succeeds. *)
Definition torch_randn (E : env) (d : device) (n : Z) : M unit :=
  fun w =>
    if n <? 0 then (w, inl (RuntimeError "Trying to create tensor with negative dimension"))
    else match randn_error E (List.length (filter is_randn (trace w))) d n with
         | Some e => (w, inl e)
         | None => emit (EvRandn d n) w
         end.

(** [if device.type == "cuda": torch.cuda.synchronize()] *)
Definition sync_if_cuda (d : device) : M unit :=
  if (dev_type d =? "cuda")%string then emit EvCudaSynchronize else ret tt.

(** ** torch_matmul_bench *)

Record BenchSummary : Type :=
  { device_ : string;
    size : Z;
    runs : Z;
    times_s : list Q;
    gflops : list Q;
    time_avg_s : Q;
    time_best_s : Q;
    gflops_avg : Q;
    gflops_best : Q }.

Definition giga : Q := 1e9.

(** Line 199: [(2 * (size ** 3)) / (t * 1e9)] *)
Definition trial_gflops (size : Z) (t : Q) : exn + Q :=
  truediv (inject_Z (2 * size ^ 3)) (t * giga).

(** Lines 203-213: the [BenchSummary(...)] call; its arguments are evaluated
    in the order they are written. *)
Definition summarize (d : device) (size runs : Z) (times gfs : list Q)
  : exn + BenchSummary :=
  let len l := inject_Z (Z.of_nat (List.length l)) in
  let? avg_t := truediv (sum times) (len times) in
  let? best_t := min times in
  let? avg_g := truediv (sum gfs) (len gfs) in
  let? best_g := max gfs in
  inr {| device_ := str_device d;
         size := size;
         runs := runs;
         times_s := times;
         gflops := gfs;
         time_avg_s := avg_t;
         time_best_s := best_t;
         gflops_avg := avg_g;
         gflops_best := best_g |}.

(** Lines 183-186: one warm-up pass. *)
Definition warmup_pass (d : device) (_ : Z) (u : unit) : M unit :=
  (emit EvMatmul ;; sync_if_cuda d)%M.

(** Lines 191-201: one timed trial, appending to [times] and [gfs]. *)
Definition timed_trial (E : env) (d : device) (size : Z) (_ : Z)
    (acc : list Q * list Q) : M (list Q * list Q) :=
  (start <- time_now E ;;
   emit EvMatmul ;;
   sync_if_cuda d ;;
   end_ <- time_now E ;;
   let t := (end_ - start)%Q in
   g <- lift (trial_gflops size t) ;;
   ret (fst acc ++ [t], snd acc ++ [g]))%M.

Definition torch_matmul_bench (E : env) (d : device) (size runs : Z)
  : M BenchSummary :=
  (torch_randn E d size ;;
   torch_randn E d size ;;
   for_each (range 2) (warmup_pass d) tt ;;
   acc <- for_each (range runs) (timed_trial E d size) ([], []) ;;
   lift (summarize d size runs (fst acc) (snd acc)))%M.

(** ** Probes *)

Record GPUInfo : Type :=
  { gpu_name : string; memory_gb : option Q; capability : option string }.

Record SystemSnapshot : Type :=
  { timestamp : string;
    os : string;
    os_release : string;
    arch : string;
    python : string;
    torch : string;
    cuda_available : bool;
    mps_available : bool;
    cuda_version : option string;
    cpu_logical : option Z;
    cpu_physical : option Z;
    ram_total_gb : option Q;
    ram_available_gb : option Q;
    gpus : list GPUInfo }.

Definition bytes_to_gb (n : Z) : Q := round2 (inject_Z n / inject_Z (1024 ^ 3)).

(** Lines 119-121: the loop over the CUDA devices.  The list [gpus] is
    extended in place, so what was appended before a failure stays. *)
Fixpoint enumerate_cuda (E : env) (idx : list Z) (gpus : list GPUInfo)
  : list GPUInfo * (exn + unit) :=
  match idx with
  | [] => (gpus, inr tt)
  | i :: rest =>
      match cuda_get_device_properties E i with
      | inl e => (gpus, inl e)
      | inr p =>
          enumerate_cuda E rest
            (gpus ++ [{| gpu_name := cp_name p;
                         memory_gb := Some (round2 (inject_Z (cp_total_memory p)
                                                    / inject_Z (1024 ^ 3)));
                         capability := Some (str_int (cp_major p) ++ "."
                                             ++ str_int (cp_minor p))%string |}])
      end
  end.

Definition get_gpus (E : env) : exn + list GPUInfo :=
  let '(gpus, r) :=
    if cuda_is_available E then
      match cuda_device_count E with
      | inl e => ([], inl e)
      | inr n => enumerate_cuda E (range n) []
      end
    else if mps_usable E then
      ([{| gpu_name := "Apple MPS (Metal)"; memory_gb := None; capability := None |}],
       inr tt)
    else ([], inr tt) in
  match r with
  | inr _ => inr gpus
  | inl e =>
      if is_Exception e then
        inr (gpus ++ [{| gpu_name := ("<error: " ++ str_exn e)%string;
                         memory_gb := None; capability := None |}])
      else inl e
  end.

(** [try: body except Exception: pass], for a body whose effect is to set
    the variables held in [A]: [dflt] is their value when the body raised. *)
Definition try_pass {A} (body : exn + A) (dflt : exn -> A) : exn + A :=
  match body with
  | inr a => inr a
  | inl e => if is_Exception e then inr (dflt e) else inl e
  end.

(** Lines 133-138 *)
Definition probe_ram (ps : psutil_module) : exn + (option Q * option Q) :=
  try_pass
    (let? vm := ps_virtual_memory ps in
     inr (Some (bytes_to_gb (fst vm)), Some (bytes_to_gb (snd vm))))
    (fun _ => (None, None)).

(** Lines 139-143: [cpu_logical] is assigned before the second call. *)
Definition probe_cpu (ps : psutil_module) : exn + (option Z * option Z) :=
  match ps_cpu_count ps true with
  | inl e => try_pass (inl e) (fun _ => (None, None))
  | inr logical =>
      try_pass (let? physical := ps_cpu_count ps false in inr (logical, physical))
               (fun _ => (logical, None))
  end.

(** Line 156: [getattr(torch.backends.mps, "is_available", lambda: False)()] *)
Definition probe_mps (E : env) : exn + bool :=
  match backends_mps E with
  | Some b => inr b
  | None => inl (AttributeError "module 'torch.backends' has no attribute 'mps'")
  end.

Definition get_system_snapshot (E : env) : M SystemSnapshot :=
  (ram <- lift (match psutil E with
                | Some ps => probe_ram ps
                | None => inr (None, None)
                end) ;;
   cpu <- lift (match psutil E with
                | Some ps => probe_cpu ps
                | None => inr (None, None)
                end) ;;
   let cuda_ver := torch_version_cuda E in
   now <- utcnow (utcnow_isoformat E) ;;
   mps <- lift (probe_mps E) ;;
   gs <- lift (get_gpus E) ;;
   ret {| timestamp := (now ++ "Z")%string;
          os := platform_system E;
          os_release := platform_release E;
          arch := platform_machine E;
          python := python_version E;
          torch := torch_version E;
          cuda_available := cuda_is_available E;
          mps_available := mps;
          cuda_version := cuda_ver;
          cpu_logical := fst cpu;
          cpu_physical := snd cpu;
          ram_total_gb := fst ram;
          ram_available_gb := snd ram;
          gpus := gs |})%M.

(** Line 224: [[torch.cuda.get_device_name(i) for i in range(n)]] *)
Fixpoint device_names (E : env) (idx : list Z) : exn + list json :=
  match idx with
  | [] => inr []
  | i :: rest =>
      let? name := cuda_get_device_name E i in
      let? names := device_names E rest in
      inr (JStr name :: names)
  end.

Definition gpu_memory_stats (E : env) : exn + json :=
  if cuda_is_available E then
    let? info := cuda_mem_get_info E in
    let? n := cuda_device_count E in
    let? names := device_names E (range n) in
    inr (JDict [("backend", JStr "cuda");
                ("free_gb", JFloat (bytes_to_gb (fst info)));
                ("total_gb", JFloat (bytes_to_gb (snd info)));
                ("device_count", JInt n);
                ("devices", JList names)])
  else if mps_usable E then
    inr (JDict [("backend", JStr "mps");
                ("note", JStr "Metal reports shared memory; exact free/total not available")])
  else
    inr (JDict [("backend", JStr "cpu"); ("note", JStr "No accelerator detected")]).

(** ** Reporting *)

(** [asdict] of the three dataclasses *)
Definition asdict_gpu (g : GPUInfo) : list (string * json) :=
  [("name", JStr (gpu_name g));
   ("memory_gb", opt_json JFloat (memory_gb g));
   ("capability", opt_json JStr (capability g))].

Definition asdict_snapshot (s : SystemSnapshot) : list (string * json) :=
  [("timestamp", JStr (timestamp s));
   ("os", JStr (os s));
   ("os_release", JStr (os_release s));
   ("arch", JStr (arch s));
   ("python", JStr (python s));
   ("torch", JStr (torch s));
   ("cuda_available", JBool (cuda_available s));
   ("mps_available", JBool (mps_available s));
   ("cuda_version", opt_json JStr (cuda_version s));
   ("cpu_logical", opt_json JInt (cpu_logical s));
   ("cpu_physical", opt_json JInt (cpu_physical s));
   ("ram_total_gb", opt_json JFloat (ram_total_gb s));
   ("ram_available_gb", opt_json JFloat (ram_available_gb s));
   ("gpus", JList (map (fun g => JDict (asdict_gpu g)) (gpus s)))].

Definition asdict_run (r : BenchRun) : list (string * json) :=
  [("run_idx", JInt (run_idx r));
   ("device", JStr (run_device r));
   ("size", JInt (run_size r));
   ("time_s", JFloat (time_s r));
   ("gflops", JFloat (run_gflops r))].

(** [enumerate(l)] *)
Definition enumerate {A} (l : list A) : list (Z * A) :=
  combine (map Z.of_nat (seq 0 (List.length l))) l.

(** Lines 248-256: the rows of the key/value table. *)
Definition system_rows (d : list (string * json)) : list (string * json) :=
  flat_map
    (fun kv =>
       if (fst kv =? "gpus")%string then
         match snd kv with
         | JList v =>
             flat_map
               (fun ig =>
                  match snd ig with
                  | JDict g =>
                      map (fun gkv =>
                             (("gpu[" ++ str_int (fst ig) ++ "]." ++ fst gkv)%string,
                              snd gkv)) g
                  | _ => []
                  end)
               (enumerate v)
         | _ => []
         end
       else [kv])
    d.

(** [os.path.join(dir, name)] for a relative [name], POSIX separator. *)
Fixpoint ends_with_slash (s : string) : bool :=
  match s with
  | EmptyString => false
  | String c EmptyString => (c =? "/")%char
  | String _ r => ends_with_slash r
  end.

Definition path_join (dir name : string) : string :=
  if (dir =? "")%string then name
  else if ends_with_slash dir then (dir ++ name)%string
  else (dir ++ "/" ++ name)%string.

(** ** main *)

(** The command line after [int] conversion of [--size] and [--runs]. *)
Record args : Type :=
  { arg_device : string;
    arg_size : Z;
    arg_runs : Z;
    arg_outdir : string;
    arg_pretty : bool }.

Definition device_choices : list string := ["auto"; "cuda"; "mps"; "cpu"].

(** [ap.parse_args()]: a value outside [choices] ends the process with
    status 2. *)
Definition parse_args (a : args) : exn + args :=
  if existsb (String.eqb (arg_device a)) device_choices then inr a
  else inl (SystemExit 2).

(** Lines 296-299 *)
Fixpoint bench_runs (s : BenchSummary) (idx : list Z) : exn + list BenchRun :=
  match idx with
  | [] => inr []
  | i :: rest =>
      let? t := index (times_s s) i in
      let? g := index (gflops s) i in
      let? rs := bench_runs s rest in
      inr ({| run_idx := i + 1;
              run_device := device_ s;
              run_size := size s;
              time_s := t;
              run_gflops := g |} :: rs)
  end.

(** Lines 301-315 *)
Definition report (now : string) (snap : SystemSnapshot) (mem : json)
    (s : BenchSummary) (rs : list BenchRun) : json :=
  JDict [("timestamp", JStr (now ++ "Z")%string);
         ("system", JDict (asdict_snapshot snap));
         ("memory", mem);
         ("bench", JDict [("device", JStr (device_ s));
                          ("size", JInt (size s));
                          ("runs", JInt (runs s));
                          ("time_avg_s", JFloat (time_avg_s s));
                          ("time_best_s", JFloat (time_best_s s));
                          ("gflops_avg", JFloat (gflops_avg s));
                          ("gflops_best", JFloat (gflops_best s));
                          ("per_run", JList (map (fun r => JDict (asdict_run r)) rs))])].

(** [main()], without the lines it prints. *)
Definition main (E : env) (argv : args) : M unit :=
  (a <- lift (parse_args argv) ;;
   emit (EvMakedirs (arg_outdir a)) ;;
   stamp <- utcnow (utcnow_strftime E) ;;
   snap <- get_system_snapshot E ;;
   d <- lift (pick_device E (arg_device a)) ;;
   summary <- torch_matmul_bench E d (arg_size a) (arg_runs a) ;;
   mem <- lift (gpu_memory_stats E) ;;
   rs <- lift (bench_runs summary (range (runs summary))) ;;
   now <- utcnow (utcnow_isoformat E) ;;
   let doc := report now snap mem summary rs in
   let json_path := path_join (arg_outdir a) (stamp ++ "_summary.json")%string in
   let csv_bench_path := path_join (arg_outdir a) (stamp ++ "_bench.csv")%string in
   let csv_sys_path := path_join (arg_outdir a) (stamp ++ "_system.csv")%string in
   emit (EvWriteJson json_path doc (arg_pretty a)) ;;
   emit (EvWriteBenchCsv csv_bench_path rs) ;;
   emit (EvWriteSystemCsv csv_sys_path (system_rows (asdict_snapshot snap))))%M.

(** * Vocabulary of the properties *)

(** ** Statistics, in the specification's words

    The mean is the total over the count, the minimum is an element below
    all others, the maximum an element above all others. *)

Definition total (l : list Q) : Q := fold_right Qplus 0%Q l.

Definition arithmetic_mean (l : list Q) : Q :=
  (total l / inject_Z (Z.of_nat (List.length l)))%Q.

Definition is_minimum (m : Q) (l : list Q) : Prop :=
  In m l /\ forall x, In x l -> (m <= x)%Q.

Definition is_maximum (m : Q) (l : list Q) : Prop :=
  In m l /\ forall x, In x l -> (x <= m)%Q.

(** ** Effects of a run *)

(** Effects of one synchronization point, of one warm-up pass, of one timed
    trial, and of everything before the timed loop. *)
Definition sync_events (d : device) : list event :=
  if (dev_type d =? "cuda")%string then [EvCudaSynchronize] else [].

Definition warmup_events (d : device) : list event := EvMatmul :: sync_events d.

Definition trial_events (d : device) : list event :=
  [EvTime; EvMatmul] ++ sync_events d ++ [EvTime].

Definition prologue_events (d : device) (size : Z) : list event :=
  [EvRandn d size; EvRandn d size] ++ warmup_events d ++ warmup_events d.

(** The world after the effects [evs], [ticks] of them clock readings. *)
Definition advance (w : world) (evs : list event) (ticks : nat) : world :=
  {| trace := trace w ++ evs;
     time_calls := time_calls w + ticks;
     utc_calls := utc_calls w |}.

(** The world after one call of [datetime.utcnow()]. *)
Definition tick_utc (w : world) : world :=
  {| trace := trace w; time_calls := time_calls w; utc_calls := S (utc_calls w) |}.

(** The elapsed time of the trial whose first clock reading is the [k]-th,
    and the elapsed times of [n] consecutive trials. *)
Definition elapsed_at (E : env) (k : nat) : Q :=
  (time_time E (S k) - time_time E k)%Q.

Fixpoint elapsed_from (E : env) (k n : nat) : list Q :=
  match n with
  | O => []
  | S n' => elapsed_at E k :: elapsed_from E (S (S k)) n'
  end.

(** The throughput of a trial of the given size that took [t]. *)
Definition throughput (size : Z) (t : Q) : Q :=
  (inject_Z (2 * size ^ 3) / (t * giga))%Q.

(** Allocation succeeds: torch accepts the size and the host has room. *)
Definition alloc_ok (E : env) (d : device) (size : Z) : Prop :=
  0 <= size /\ forall k, randn_error E k d size = None.

Definition is_matmul (e : event) : bool :=
  match e with EvMatmul => true | _ => false end.

Definition is_time (e : event) : bool :=
  match e with EvTime => true | _ => false end.

Definition is_sync (e : event) : bool :=
  match e with EvCudaSynchronize => true | _ => false end.

(** Every multiplication in the trace is immediately followed by the
    synchronization barrier. *)
Fixpoint barrier_after_each_matmul (tr : list event) : bool :=
  match tr with
  | [] => true
  | EvMatmul :: rest =>
      match rest with
      | EvCudaSynchronize :: _ => barrier_after_each_matmul rest
      | _ => false
      end
  | _ :: rest => barrier_after_each_matmul rest
  end.

(** ** Outcomes the specification names *)

(** An error raised without dividing by zero. *)
Definition signals_usage_error {A} (r : exn + A) : Prop :=
  exists e, r = inl e /\ e <> ZeroDivisionError.

(** A run returns exactly [nruns] samples, each with a positive elapsed
    time. *)
Definition returns_positive_samples (E : env) (d : device) (size nruns : Z)
    (w : world) : Prop :=
  exists w' s,
    torch_matmul_bench E d size nruns w = (w', inr s)
    /\ Z.of_nat (List.length (times_s s)) = nruns
    /\ Forall (fun t => (0 < t)%Q) (times_s s).

(** The program ends in an error and has allocated no buffer. *)
Definition rejects_before_allocation (E : env) (argv : args) : Prop :=
  exists w' e,
    main E argv world0 = (w', inl e) /\ filter is_randn (trace w') = [].

(** ** Probes *)

(** A probe fails in a way [except Exception] catches, or not at all. *)
Definition catchable {A} (r : exn + A) : Prop :=
  match r with
  | inl e => is_Exception e = true
  | inr _ => True
  end.

Definition probes_catchable (E : env) : Prop :=
  (forall ps, psutil E = Some ps ->
     catchable (ps_virtual_memory ps) /\ forall b, catchable (ps_cpu_count ps b))
  /\ catchable (cuda_device_count E)
  /\ forall i, catchable (cuda_get_device_properties E i).

(** The entry [get_gpus] records in place of what it could not enumerate. *)
Definition gpu_error_entry (e : exn) : GPUInfo :=
  {| gpu_name := ("<error: " ++ str_exn e)%string;
     memory_gb := None; capability := None |}.

(** ** Hosts used as concrete inputs *)

Definition psutil_8core : psutil_module :=
  {| ps_virtual_memory := inr (17179869184, 8589934592);
     ps_cpu_count := fun logical => inr (Some (if logical then 16 else 8)) |}.

Definition no_cuda {A} : exn + A := inl (RuntimeError "No CUDA GPUs are available").

(** A host with the given accelerators and wall clock, where every
    allocation succeeds. *)
Definition host (cuda : bool) (mps : option bool) (clock : nat -> Q) : env :=
  {| cuda_is_available := cuda;
     backends_mps := mps;
     torch_device_other := fun _ => inl (RuntimeError "Expected one of cpu, cuda, ... device type");
     torch_version := "2.3.1";
     torch_version_cuda := None;
     cuda_device_count := inr 0;
     cuda_get_device_properties := fun _ => no_cuda;
     cuda_mem_get_info := no_cuda;
     cuda_get_device_name := fun _ => no_cuda;
     randn_error := fun _ _ _ => None;
     psutil := Some psutil_8core;
     platform_system := "Linux";
     platform_release := "6.8.0";
     platform_machine := "x86_64";
     python_version := "3.11.9";
     time_time := clock;
     utcnow_isoformat := fun _ => "2024-06-01T12:00:00.000000";
     utcnow_strftime := fun _ => "2024-06-01T12-00-00Z" |}.

(** A clock that advances by 1/64 s between any two readings. *)
Definition fine_clock (k : nat) : Q := (1717243200 + inject_Z (Z.of_nat k) / 64)%Q.

(** A clock with a 1/64 s tick when a trial takes less than a tick: the two
    readings of a trial fall in the same tick. *)
Definition coarse_clock (k : nat) : Q :=
  (1717243200 + inject_Z (Z.of_nat (k / 2)) / 64)%Q.

Definition host_cpu : env := host false (Some false) fine_clock.
Definition host_cpu_coarse : env := host false (Some false) coarse_clock.
Definition host_mps : env := host false (Some true) fine_clock.
Definition host_old_torch : env := host false None fine_clock.

(** ** Further vocabulary *)

(** The entry [get_gpus] records for a CUDA device with properties [p]
    (line 121). *)
Definition gpu_of_props (p : cuda_props) : GPUInfo :=
  {| gpu_name := cp_name p;
     memory_gb := Some (round2 (inject_Z (cp_total_memory p) / inject_Z (1024 ^ 3)));
     capability := Some (str_int (cp_major p) ++ "." ++ str_int (cp_minor p))%string |}.


(** [d[k]] for a dict that has the key, [None] otherwise. *)
Fixpoint lookup (k : string) (d : list (string * json)) : option json :=
  match d with
  | [] => None
  | (k', v) :: rest => if (k' =? k)%string then Some v else lookup k rest
  end.

(** A host described probe by probe; every allocation succeeds. *)
Definition host_with (cuda : bool) (mps : option bool) (ps : option psutil_module)
    (count : exn + Z) (props : Z -> exn + cuda_props)
    (meminfo : exn + (Z * Z)) (names : Z -> exn + string) (clock : nat -> Q)
  : env :=
  {| cuda_is_available := cuda;
     backends_mps := mps;
     torch_device_other := fun _ => inl (RuntimeError "Expected one of cpu, cuda, ... device type");
     torch_version := "2.3.1";
     torch_version_cuda := if cuda then Some "12.1" else None;
     cuda_device_count := count;
     cuda_get_device_properties := props;
     cuda_mem_get_info := meminfo;
     cuda_get_device_name := names;
     randn_error := fun _ _ _ => None;
     psutil := ps;
     platform_system := "Linux";
     platform_release := "6.8.0";
     platform_machine := "x86_64";
     python_version := "3.11.9";
     time_time := clock;
     utcnow_isoformat := fun k => ("2024-06-01T12:00:0" ++ str_int (Z.of_nat k) ++ ".000000")%string;
     utcnow_strftime := fun k => ("2024-06-01T12-00-0" ++ str_int (Z.of_nat k) ++ "Z")%string |}.

Definition a100 : cuda_props :=
  {| cp_name := "NVIDIA A100"; cp_total_memory := 42949672960;
     cp_major := 8; cp_minor := 0 |}.

Definition props_two_gpus (i : Z) : exn + cuda_props :=
  if (i =? 0) || (i =? 1) then inr a100
  else inl (RuntimeError "Invalid device id").

Definition names_two_gpus (i : Z) : exn + string :=
  if (i =? 0) || (i =? 1) then inr "NVIDIA A100"
  else inl (RuntimeError "Invalid device id").

(** Two CUDA devices, all probes working. *)
Definition host_two_gpus : env :=
  host_with true (Some false) (Some psutil_8core) (inr 2) props_two_gpus
            (inr (40000000000, 42949672960)) names_two_gpus fine_clock.

(** Two CUDA devices, the second of which cannot be queried. *)
Definition host_gpu_fault : env :=
  host_with true (Some false) (Some psutil_8core) (inr 2)
            (fun i => if i =? 0 then inr a100
                      else inl (RuntimeError "CUDA error: unspecified launch failure"))
            (inr (40000000000, 42949672960)) names_two_gpus fine_clock.

(** Two CUDA devices, [torch.cuda.mem_get_info()] raising. *)
Definition host_meminfo_fault : env :=
  host_with true (Some false) (Some psutil_8core) (inr 2) props_two_gpus
            (inl (RuntimeError "CUDA error: out of memory")) names_two_gpus fine_clock.

(** No psutil, no accelerator. *)
Definition host_no_psutil : env :=
  host_with false (Some false) None (inr 0) (fun _ => no_cuda) no_cuda
            (fun _ => no_cuda) fine_clock.

(** psutil present, [cpu_count(logical=False)] raising. *)
Definition host_cpu_fault : env :=
  host_with false (Some false)
            (Some {| ps_virtual_memory := inr (17179869184, 8589934592);
                     ps_cpu_count := fun logical =>
                       if logical then inr (Some 16)
                       else inl (OSError "cannot read /proc/cpuinfo") |})
            (inr 0) (fun _ => no_cuda) no_cuda (fun _ => no_cuda) fine_clock.

(** The record of the trial with index [i] of a summary (line 297). *)
Definition run_of (s : BenchSummary) (i : Z) : BenchRun :=
  {| run_idx := i + 1;
     run_device := device_ s;
     run_size := size s;
     time_s := nth (Z.to_nat i) (times_s s) 0%Q;
     run_gflops := nth (Z.to_nat i) (gflops s) 0%Q |}.


(** The three files of a run whose stamp is [stamp]. *)
Definition json_path (outdir stamp : string) : string :=
  path_join outdir (stamp ++ "_summary.json")%string.

Definition csv_bench_path (outdir stamp : string) : string :=
  path_join outdir (stamp ++ "_bench.csv")%string.

Definition csv_sys_path (outdir stamp : string) : string :=
  path_join outdir (stamp ++ "_system.csv")%string.


(** The key of the row for field [field] of the accelerator at position
    [i] (line 254), and the rows of that accelerator. *)
Definition gpu_key (i : Z) (field : string) : string :=
  ("gpu[" ++ str_int i ++ "]." ++ field)%string.

Definition gpu_rows (i : Z) (g : GPUInfo) : list (string * json) :=
  map (fun kv => (gpu_key i (fst kv), snd kv)) (asdict_gpu g).

(** No character of a printed integer is a closing bracket. *)
Fixpoint bracket_free (s : string) : Prop :=
  match s with
  | EmptyString => True
  | String c r => c <> "]"%char /\ bracket_free r
  end.

(** A clock that is set back by half a second during the second trial. *)
Definition stepping_clock (k : nat) : Q :=
  if (k =? 3)%nat then (1717243200 - (1 # 2))%Q else fine_clock k.

Definition host_clock_step : env := host false (Some false) stepping_clock.

(** ** Line 199 in binary64

    Python's [float] is IEEE 754 binary64, which the primitive floats are.
    [int / float] first converts the int, rounding to nearest even and
    raising OverflowError beyond the range, and then raises ZeroDivisionError
    on a zero divisor. *)

Module B64.

Import PrimFloat.








End B64.

(** ** Line 199 under a rounding

    Every float operation returns its exact result rounded; [rnd] is that
    rounding, and the exact arithmetic of [trial_gflops] is the case where it
    changes nothing. *)

Definition trial_gflops_rounded (rnd : Q -> Q) (size : Z) (t : Q) : exn + Q :=
  let? q := truediv (rnd (inject_Z (2 * size ^ 3))) (rnd (t * giga)%Q) in
  inr (rnd q).


(** ** The JSON document

    After the json module's documentation.  [json.dump] turns a dict into an
    object, a list into an array, a str into a string, an int into an integer
    literal, a float into a literal with a fraction or an exponent, True,
    False and None into true, false and null.  [json.load] goes back by the
    same table, building each dict from the members of its object in order,
    so that of two members with one name the later value stays, at the place
    of the earlier. *)

Inductive jvalue : Type :=
| JVnull
| JVtrue
| JVfalse
| JVint (n : Z)
| JVreal (x : Q)
| JVstring (s : string)
| JVarray (items : list jvalue)
| JVobject (members : list (string * jvalue)).

Fixpoint json_dump (j : json) : jvalue :=
  match j with
  | JNone => JVnull
  | JBool true => JVtrue
  | JBool false => JVfalse
  | JInt n => JVint n
  | JFloat x => JVreal x
  | JStr s => JVstring s
  | JList l => JVarray (map json_dump l)
  | JDict d => JVobject (map (fun kv => (fst kv, json_dump (snd kv))) d)
  end.

(** [d[k] = v] on a dict *)
Fixpoint dict_set (k : string) (v : json) (d : list (string * json))
  : list (string * json) :=
  match d with
  | [] => [(k, v)]
  | (k', v') :: rest =>
      if (k' =? k)%string then (k', v) :: rest else (k', v') :: dict_set k v rest
  end.

(** [dict(pairs)] *)
Definition dict_of_pairs (pairs : list (string * json)) : list (string * json) :=
  fold_left (fun d kv => dict_set (fst kv) (snd kv) d) pairs [].

Fixpoint json_load (v : jvalue) : json :=
  match v with
  | JVnull => JNone
  | JVtrue => JBool true
  | JVfalse => JBool false
  | JVint n => JInt n
  | JVreal x => JFloat x
  | JVstring s => JStr s
  | JVarray items => JList (map json_load items)
  | JVobject members =>
      JDict (dict_of_pairs (map (fun kv => (fst kv, json_load (snd kv))) members))
  end.

(** A Python dict has each key once: the object graphs that exist. *)
Fixpoint keys_unique (seen : list string) (d : list (string * json)) : bool :=
  match d with
  | [] => true
  | (k, _) :: rest =>
      negb (existsb (String.eqb k) seen) && keys_unique (k :: seen) rest
  end.

Fixpoint dict_like (j : json) : bool :=
  match j with
  | JList l => forallb dict_like l
  | JDict d => keys_unique [] d && forallb (fun kv => dict_like (snd kv)) d
  | _ => true
  end.

(** ** Reading a report back

    The fields of the report, and the reader that takes them out of a parsed
    document by key. *)

Record Report : Type :=
  { r_timestamp : string;
    r_system : SystemSnapshot;
    r_memory : json;
    r_device : string;
    r_size : Z;
    r_runs : Z;
    r_time_avg_s : Q;
    r_time_best_s : Q;
    r_gflops_avg : Q;
    r_gflops_best : Q;
    r_per_run : list BenchRun }.

(** The report [main] composes (lines 301-315), field by field. *)
Definition report_fields (now : string) (snap : SystemSnapshot) (mem : json)
    (s : BenchSummary) (rs : list BenchRun) : Report :=
  {| r_timestamp := (now ++ "Z")%string;
     r_system := snap;
     r_memory := mem;
     r_device := device_ s;
     r_size := size s;
     r_runs := runs s;
     r_time_avg_s := time_avg_s s;
     r_time_best_s := time_best_s s;
     r_gflops_avg := gflops_avg s;
     r_gflops_best := gflops_best s;
     r_per_run := rs |}.

Definition as_str (j : json) : option string :=
  match j with JStr s => Some s | _ => None end.

Definition as_int (j : json) : option Z :=
  match j with JInt n => Some n | _ => None end.

Definition as_float (j : json) : option Q :=
  match j with JFloat x => Some x | _ => None end.

Definition as_bool (j : json) : option bool :=
  match j with JBool b => Some b | _ => None end.

(** An [Optional] field: null is [None]. *)
Definition as_optional {A} (f : json -> option A) (j : json) : option (option A) :=
  match j with
  | JNone => Some None
  | _ => option_map Some (f j)
  end.

Fixpoint as_list {A} (f : json -> option A) (l : list json) : option (list A) :=
  match l with
  | [] => Some []
  | j :: rest =>
      match f j, as_list f rest with
      | Some a, Some r => Some (a :: r)
      | _, _ => None
      end
  end.

(** [d[k]] read with [f], for a document that is an object. *)
Definition field {A} (f : json -> option A) (k : string) (j : json) : option A :=
  match j with
  | JDict d => match lookup k d with Some v => f v | None => None end
  | _ => None
  end.

Notation "'let*' x := e 'in' k" :=
  (match e with Some x => k | None => None end)
  (at level 10, x name, e at level 100, k at level 200).

Definition read_gpu (j : json) : option GPUInfo :=
  let* name := field as_str "name" j in
  let* memory := field (as_optional as_float) "memory_gb" j in
  let* cap := field (as_optional as_str) "capability" j in
  Some {| gpu_name := name; memory_gb := memory; capability := cap |}.

Definition read_snapshot (j : json) : option SystemSnapshot :=
  let* ts := field as_str "timestamp" j in
  let* o := field as_str "os" j in
  let* rel := field as_str "os_release" j in
  let* ar := field as_str "arch" j in
  let* py := field as_str "python" j in
  let* tv := field as_str "torch" j in
  let* cu := field as_bool "cuda_available" j in
  let* mp := field as_bool "mps_available" j in
  let* cv := field (as_optional as_str) "cuda_version" j in
  let* cl := field (as_optional as_int) "cpu_logical" j in
  let* cp := field (as_optional as_int) "cpu_physical" j in
  let* rt := field (as_optional as_float) "ram_total_gb" j in
  let* ra := field (as_optional as_float) "ram_available_gb" j in
  let* gs := field (fun v => match v with
                             | JList l => as_list read_gpu l
                             | _ => None
                             end) "gpus" j in
  Some {| timestamp := ts; os := o; os_release := rel; arch := ar; python := py;
          torch := tv; cuda_available := cu; mps_available := mp;
          cuda_version := cv; cpu_logical := cl; cpu_physical := cp;
          ram_total_gb := rt; ram_available_gb := ra; gpus := gs |}.

Definition read_run (j : json) : option BenchRun :=
  let* i := field as_int "run_idx" j in
  let* dv := field as_str "device" j in
  let* sz := field as_int "size" j in
  let* t := field as_float "time_s" j in
  let* g := field as_float "gflops" j in
  Some {| run_idx := i; run_device := dv; run_size := sz; time_s := t;
          run_gflops := g |}.

Definition read_report (j : json) : option Report :=
  let* ts := field as_str "timestamp" j in
  let* sys := field read_snapshot "system" j in
  let* mem := field Some "memory" j in
  let* b := field Some "bench" j in
  let* dv := field as_str "device" b in
  let* sz := field as_int "size" b in
  let* rn := field as_int "runs" b in
  let* ta := field as_float "time_avg_s" b in
  let* tb := field as_float "time_best_s" b in
  let* ga := field as_float "gflops_avg" b in
  let* gb := field as_float "gflops_best" b in
  let* pr := field (fun v => match v with
                             | JList l => as_list read_run l
                             | _ => None
                             end) "per_run" b in
  Some {| r_timestamp := ts; r_system := sys; r_memory := mem; r_device := dv;
          r_size := sz; r_runs := rn; r_time_avg_s := ta; r_time_best_s := tb;
          r_gflops_avg := ga; r_gflops_best := gb; r_per_run := pr |}.

(** Induction on a JSON value, with the values inside lists and dicts. *)
Section JsonInduction.

Variable P : json -> Prop.
Hypothesis P_none : P JNone.
Hypothesis P_bool : forall b, P (JBool b).
Hypothesis P_int : forall n, P (JInt n).
Hypothesis P_float : forall x, P (JFloat x).
Hypothesis P_str : forall s, P (JStr s).
Hypothesis P_list : forall l, Forall P l -> P (JList l).
Hypothesis P_dict : forall d, Forall (fun kv => P (snd kv)) d -> P (JDict d).

Fixpoint json_nested_ind (j : json) : P j :=
  match j with
  | JNone => P_none
  | JBool b => P_bool b
  | JInt n => P_int n
  | JFloat x => P_float x
  | JStr s => P_str s
  | JList l =>
      P_list l
        ((fix items (l : list json) : Forall P l :=
            match l with
            | [] => Forall_nil P
            | x :: r => Forall_cons x (json_nested_ind x) (items r)
            end) l)
  | JDict d =>
      P_dict d
        ((fix members (d : list (string * json))
            : Forall (fun kv => P (snd kv)) d :=
            match d with
            | [] => Forall_nil _
            | (k, v) :: r =>
                Forall_cons (P := fun kv => P (snd kv)) (k, v)
                            (json_nested_ind v) (members r)
            end) d)
  end.

End JsonInduction.

(** A report to read back: the snapshot of a host with one GPU, the memory
    statistics of a host without accelerator, a summary of two trials. *)
Definition sample_snapshot : SystemSnapshot :=
  {| timestamp := "2024-06-01T12:00:00Z";
     os := "Linux";
     os_release := "6.1.0";
     arch := "x86_64";
     python := "3.11.4";
     torch := "2.3.1";
     cuda_available := true;
     mps_available := false;
     cuda_version := Some "12.1";
     cpu_logical := Some 16;
     cpu_physical := None;
     ram_total_gb := Some (bytes_to_gb 68719476736);
     ram_available_gb := None;
     gpus := [gpu_of_props a100;
              {| gpu_name := "Unknown"; memory_gb := None; capability := None |}] |}.

Definition sample_memory : json :=
  JDict [("backend", JStr "cpu"); ("note", JStr "No accelerator detected")].

Definition sample_summary : BenchSummary :=
  {| device_ := "cpu";
     size := 128;
     runs := 2;
     times_s := [(1 # 64)%Q; (1 # 32)%Q];
     gflops := [throughput 128 (1 # 64); throughput 128 (1 # 32)];
     time_avg_s := (3 # 128)%Q;
     time_best_s := (1 # 64)%Q;
     gflops_avg := ((throughput 128 (1 # 64) + throughput 128 (1 # 32)) / 2)%Q;
     gflops_best := throughput 128 (1 # 64) |}.

Definition sample_runs : list BenchRun :=
  [run_of sample_summary 0; run_of sample_summary 1].

(** * Properties *)

(** ** Python builtins *)

Section Builtins.

Lemma Qltb_lt (a b : Q) : Qltb a b = true <-> (a < b)%Q.
Proof.
  unfold Qltb. rewrite negb_true_iff, <- not_true_iff_false, Qle_bool_iff.
  split; [apply Qnot_le_lt | apply Qlt_not_le].
Qed.

Lemma Qltb_ge (a b : Q) : Qltb a b = false <-> (b <= a)%Q.
Proof.
  unfold Qltb. rewrite negb_false_iff. apply Qle_bool_iff.
Qed.

Lemma fold_sum_acc (l : list Q) (a : Q) :
  (fold_left Qplus l a == a + total l)%Q.
Proof.
  revert a. induction l as [|x l IH]; intros a; simpl.
  - ring.
  - rewrite IH. ring.
Qed.

Lemma sum_total (l : list Q) : (sum l == total l)%Q.
Proof.
  unfold sum. rewrite fold_sum_acc. ring.
Qed.

Lemma fold_min_spec (r : list Q) (x : Q) :
  is_minimum (fold_left (fun m y => if Qltb y m then y else m) r x) (x :: r).
Proof.
  revert x. induction r as [|y r IH]; intros x; simpl fold_left.
  - split; [now left|]. intros z [<-|[]]. apply Qle_refl.
  - destruct (Qltb y x) eqn:Hyx.
    + destruct (IH y) as [Hin Hle]. split.
      * destruct Hin as [<-|Hin]; [right; now left | right; now right].
      * intros z [<-|Hz].
        -- apply Qle_trans with y; [apply Hle; now left|].
           apply Qlt_le_weak. now apply Qltb_lt.
        -- now apply Hle.
    + destruct (IH x) as [Hin Hle]. split.
      * destruct Hin as [<-|Hin]; [now left | right; now right].
      * intros z [<-|[<-|Hz]].
        -- apply Hle. now left.
        -- apply Qle_trans with x; [apply Hle; now left|].
           now apply Qltb_ge.
        -- apply Hle. now right.
Qed.

Lemma fold_max_spec (r : list Q) (x : Q) :
  is_maximum (fold_left (fun m y => if Qltb m y then y else m) r x) (x :: r).
Proof.
  revert x. induction r as [|y r IH]; intros x; simpl fold_left.
  - split; [now left|]. intros z [<-|[]]. apply Qle_refl.
  - destruct (Qltb x y) eqn:Hxy.
    + destruct (IH y) as [Hin Hle]. split.
      * destruct Hin as [<-|Hin]; [right; now left | right; now right].
      * intros z [<-|Hz].
        -- apply Qle_trans with y; [|apply Hle; now left].
           apply Qlt_le_weak. now apply Qltb_lt.
        -- now apply Hle.
    + destruct (IH x) as [Hin Hle]. split.
      * destruct Hin as [<-|Hin]; [now left | right; now right].
      * intros z [<-|[<-|Hz]].
        -- apply Hle. now left.
        -- apply Qle_trans with x; [|apply Hle; now left].
           now apply Qltb_ge.
        -- apply Hle. now right.
Qed.

Lemma min_spec (l : list Q) (m : Q) : min l = inr m -> is_minimum m l.
Proof.
  destruct l as [|x r]; simpl; [discriminate|].
  intros [= <-]. apply fold_min_spec.
Qed.

Lemma max_spec (l : list Q) (m : Q) : max l = inr m -> is_maximum m l.
Proof.
  destruct l as [|x r]; simpl; [discriminate|].
  intros [= <-]. apply fold_max_spec.
Qed.

Lemma truediv_nonzero (a b : Q) : ~ (b == 0)%Q -> truediv a b = inr (a / b)%Q.
Proof.
  intros Hb. unfold truediv.
  destruct (Qeq_bool b 0) eqn:E; [|reflexivity].
  exfalso. apply Hb. now apply Qeq_bool_iff.
Qed.

Lemma truediv_zero (a b : Q) : (b == 0)%Q -> truediv a b = inl ZeroDivisionError.
Proof.
  intros Hb. unfold truediv. now rewrite (proj2 (Qeq_bool_iff b 0) Hb).
Qed.

(** What [round2] chooses: an integer number of hundredths within half a
    hundredth of its argument. *)
Lemma round2_hundredths (x : Q) :
  exists n : Z,
    round2 x = (inject_Z n / 100)%Q
    /\ (inject_Z n - (1 # 2) <= x * 100 <= inject_Z n + (1 # 2))%Q
    /\ (Qfloor (x * 100) <= n <= Qfloor (x * 100) + 1)
    /\ (n = Qfloor (x * 100) -> (x * 100 - inject_Z (Qfloor (x * 100)) <= 1 # 2)%Q)
    /\ (n = Qfloor (x * 100) + 1 -> (1 # 2 <= x * 100 - inject_Z (Qfloor (x * 100)))%Q).
Proof.
  unfold round2.
  set (y := (x * 100)%Q). set (f := Qfloor y).
  assert (Hlo : (inject_Z f <= y)%Q) by apply Qfloor_le.
  assert (Hhi : (y < inject_Z (f + 1))%Q) by apply Qlt_floor.
  rewrite inject_Z_plus in Hhi. change (inject_Z 1) with 1%Q in Hhi.
  clearbody f. clearbody y.
  destruct (Qltb (y - inject_Z f) (1 # 2)) eqn:H1.
  - apply Qltb_lt in H1. exists f. split; [reflexivity|].
    split; [split; lra|]. split; [lia|]. split; [intros _; lra|].
    intros H. lia.
  - apply Qltb_ge in H1.
    destruct (Qltb (1 # 2) (y - inject_Z f)) eqn:H2.
    + apply Qltb_lt in H2. exists (f + 1). split; [reflexivity|].
      rewrite inject_Z_plus. change (inject_Z 1) with 1%Q.
      split; [split; lra|]. split; [lia|]. split; [intros H; lia|].
      intros _. lra.
    + apply Qltb_ge in H2.
      destruct (Z.even f).
      * exists f. split; [reflexivity|].
        split; [split; lra|]. split; [lia|]. split; [intros _; lra|].
        intros H. lia.
      * exists (f + 1). split; [reflexivity|].
        rewrite inject_Z_plus. change (inject_Z 1) with 1%Q.
        split; [split; lra|]. split; [lia|]. split; [intros H; lia|].
        intros _. lra.
Qed.

Lemma round2_error (x : Q) :
  (x - (1 # 200) <= round2 x <= x + (1 # 200))%Q.
Proof.
  destruct (round2_hundredths x) as (n & -> & [Hlo Hhi] & _).
  setoid_replace (inject_Z n / 100)%Q with (inject_Z n * (1 # 100))%Q by field.
  split; lra.
Qed.

Lemma round2_monotone (x y : Q) : (x <= y)%Q -> (round2 x <= round2 y)%Q.
Proof.
  intros Hxy. unfold round2.
  assert (Hxy' : (x * 100 <= y * 100)%Q) by lra.
  set (a := (x * 100)%Q) in *. set (b := (y * 100)%Q) in *.
  assert (Hf : Qfloor a <= Qfloor b) by now apply Qfloor_resp_le.
  assert (Hla : (inject_Z (Qfloor a) <= a)%Q) by apply Qfloor_le.
  assert (Hha : (a < inject_Z (Qfloor a + 1))%Q) by apply Qlt_floor.
  assert (Hlb : (inject_Z (Qfloor b) <= b)%Q) by apply Qfloor_le.
  assert (Hhb : (b < inject_Z (Qfloor b + 1))%Q) by apply Qlt_floor.
  rewrite inject_Z_plus in Hha, Hhb. change (inject_Z 1) with 1%Q in Hha, Hhb.
  set (fa := Qfloor a) in *. set (fb := Qfloor b) in *.
  clearbody fa fb. clearbody a b.
  match goal with
  | |- (inject_Z ?na / 100 <= inject_Z ?nb / 100)%Q =>
      assert (Hn : na <= nb)
  end.
  { destruct (Z.eq_dec fa fb) as [->|Hne].
    - destruct (Qltb (a - inject_Z fb) (1 # 2)) eqn:A1;
        destruct (Qltb (b - inject_Z fb) (1 # 2)) eqn:B1;
        try apply Qltb_lt in A1; try apply Qltb_ge in A1;
        try apply Qltb_lt in B1; try apply Qltb_ge in B1;
        destruct (Qltb (1 # 2) (a - inject_Z fb)) eqn:A2;
        destruct (Qltb (1 # 2) (b - inject_Z fb)) eqn:B2;
        try apply Qltb_lt in A2; try apply Qltb_ge in A2;
        try apply Qltb_lt in B2; try apply Qltb_ge in B2;
        destruct (Z.even fb); try lia; exfalso; lra.
    - destruct (Qltb (a - inject_Z fa) (1 # 2));
        destruct (Qltb (b - inject_Z fb) (1 # 2));
        destruct (Qltb (1 # 2) (a - inject_Z fa));
        destruct (Qltb (1 # 2) (b - inject_Z fb));
        destruct (Z.even fa); destruct (Z.even fb); lia. }
  apply Qmult_le_compat_r; [now rewrite <- Zle_Qle | discriminate].
Qed.

End Builtins.

(** ** The workload *)

Section Workload.

Variable E : env.
Variable d : device.
Variable size : Z.

Lemma advance_nil (w : world) : advance w [] 0 = w.
Proof.
  destruct w. unfold advance. simpl. now rewrite app_nil_r, Nat.add_0_r.
Qed.

Lemma advance_advance (w : world) (e1 e2 : list event) (t1 t2 : nat) :
  advance (advance w e1 t1) e2 t2 = advance w (e1 ++ e2) (t1 + t2).
Proof.
  unfold advance. simpl. now rewrite app_assoc, Nat.add_assoc.
Qed.

Lemma sync_if_cuda_run (w : world) :
  sync_if_cuda d w = (advance w (sync_events d) 0, inr tt).
Proof.
  unfold sync_if_cuda, sync_events.
  destruct (dev_type d =? "cuda")%string.
  - unfold emit, advance. simpl. now rewrite Nat.add_0_r.
  - unfold ret. now rewrite advance_nil.
Qed.

Lemma warmup_pass_run (i : Z) (w : world) :
  warmup_pass d i tt w = (advance w (warmup_events d) 0, inr tt).
Proof.
  unfold warmup_pass, bind, emit. rewrite sync_if_cuda_run.
  unfold advance, warmup_events. simpl.
  now rewrite <- app_assoc, !Nat.add_0_r.
Qed.

(** What a timed trial does up to its division. *)
Lemma timed_trial_run (i : Z) (acc : list Q * list Q) (w : world) :
  timed_trial E d size i acc w =
  (advance w (trial_events d) 2,
   match trial_gflops size (elapsed_at E (time_calls w)) with
   | inl e => inl e
   | inr g => inr (fst acc ++ [elapsed_at E (time_calls w)], snd acc ++ [g])
   end).
Proof.
  unfold timed_trial, bind, time_now, emit. rewrite sync_if_cuda_run.
  unfold lift, ret, elapsed_at, advance, trial_events. simpl.
  rewrite <- !app_assoc. simpl.
  replace (S (time_calls w + 0)) with (S (time_calls w)) by lia.
  replace (time_calls w + 2)%nat with (S (S (time_calls w))) by lia.
  replace (time_calls w + 0)%nat with (time_calls w) by lia.
  destruct (trial_gflops size _); reflexivity.
Qed.

Lemma trial_gflops_nonzero (t : Q) :
  ~ (t == 0)%Q -> trial_gflops size t = inr (throughput size t).
Proof.
  intros Ht. unfold trial_gflops, throughput. apply truediv_nonzero.
  unfold giga. intros H. apply Ht.
  apply Qmult_integral in H. destruct H as [H|H]; [exact H | discriminate].
Qed.

Lemma trial_gflops_zero (t : Q) :
  (t == 0)%Q -> trial_gflops size t = inl ZeroDivisionError.
Proof.
  intros Ht. unfold trial_gflops. apply truediv_zero. rewrite Ht. ring.
Qed.

(** The timed loop when no trial has a zero elapsed time. *)
Lemma timed_loop_run (idx : list Z) (acc : list Q * list Q) (w : world) :
  Forall (fun t => ~ (t == 0)%Q) (elapsed_from E (time_calls w) (List.length idx)) ->
  for_each idx (timed_trial E d size) acc w =
  (advance w (List.concat (repeat (trial_events d) (List.length idx))) (2 * List.length idx),
   inr (fst acc ++ elapsed_from E (time_calls w) (List.length idx),
        snd acc ++ map (throughput size) (elapsed_from E (time_calls w) (List.length idx)))).
Proof.
  revert acc w. induction idx as [|i idx IH]; intros acc w H.
  - simpl. unfold ret. rewrite advance_nil, !app_nil_r. now destruct acc.
  - cbn [List.length elapsed_from] in H. inversion H as [|t l Ht Hl]; subst.
    cbn [for_each]. unfold bind at 1. rewrite timed_trial_run.
    rewrite (trial_gflops_nonzero _ Ht).
    rewrite IH.
    + rewrite advance_advance. cbn [fst snd List.length repeat List.concat elapsed_from map].
      rewrite <- !app_assoc. cbn [app advance time_calls].
      replace (time_calls w + 2)%nat with (S (S (time_calls w))) by lia.
      now replace (2 + 2 * List.length idx)%nat
        with (2 * S (List.length idx))%nat by lia.
    + cbn [advance time_calls].
      now replace (time_calls w + 2)%nat with (S (S (time_calls w))) by lia.
Qed.

(** The timed loop when some trial has a zero elapsed time: the division of
    line 199 raises, and the loop ends there. *)
Lemma timed_loop_zero (idx : list Z) (acc : list Q * list Q) (w : world) :
  Exists (fun t => (t == 0)%Q) (elapsed_from E (time_calls w) (List.length idx)) ->
  exists w', for_each idx (timed_trial E d size) acc w = (w', inl ZeroDivisionError).
Proof.
  revert acc w. induction idx as [|i idx IH]; intros acc w H.
  - inversion H.
  - cbn [for_each]. unfold bind at 1. rewrite timed_trial_run.
    destruct (Qeq_dec (elapsed_at E (time_calls w)) 0) as [Hz|Hnz].
    + rewrite (trial_gflops_zero _ Hz). eauto.
    + rewrite (trial_gflops_nonzero _ Hnz).
      cbn [List.length elapsed_from] in H.
      inversion H as [t l Ht|t l Hl]; subst; [contradiction|].
      apply IH. cbn [advance time_calls].
      now replace (time_calls w + 2)%nat with (S (S (time_calls w))) by lia.
Qed.

Lemma range_length (n : Z) : List.length (range n) = Z.to_nat n.
Proof.
  unfold range. now rewrite length_map, length_seq.
Qed.

Lemma elapsed_from_length (k n : nat) : List.length (elapsed_from E k n) = n.
Proof.
  revert k. induction n; intros k; simpl; [reflexivity|]. now rewrite IHn.
Qed.

Lemma torch_randn_run (w : world) :
  alloc_ok E d size -> torch_randn E d size w = (advance w [EvRandn d size] 0, inr tt).
Proof.
  intros [Hs Hr]. unfold torch_randn.
  destruct (size <? 0) eqn:Hneg; [apply Z.ltb_lt in Hneg; lia|].
  rewrite Hr. unfold emit, advance. simpl. now rewrite Nat.add_0_r.
Qed.

Lemma bench_unfold (runs : Z) (w : world) :
  alloc_ok E d size ->
  torch_matmul_bench E d size runs w =
  match for_each (range runs) (timed_trial E d size) ([], [])
          (advance w (prologue_events d size) 0) with
  | (w', inr acc) => (w', summarize d size runs (fst acc) (snd acc))
  | (w', inl e) => (w', inl e)
  end.
Proof.
  intros Hok. unfold torch_matmul_bench.
  unfold bind at 1. rewrite (torch_randn_run w Hok).
  unfold bind at 1. rewrite (torch_randn_run _ Hok).
  unfold bind at 1. change (range 2) with [0; 1]. cbn [for_each].
  unfold bind at 1. rewrite warmup_pass_run.
  unfold bind at 1. rewrite warmup_pass_run. unfold ret.
  rewrite !advance_advance. cbn [Nat.add].
  unfold bind, lift.
  replace (([EvRandn d size] ++ [EvRandn d size]) ++ (warmup_events d) ++ (warmup_events d))
    with (prologue_events d size) by reflexivity.
  destruct (for_each _ _ _ _) as [w' [e|acc]]; reflexivity.
Qed.

End Workload.

(** ** The summary *)

Lemma len_nonzero (l : list Q) :
  l <> [] -> ~ (inject_Z (Z.of_nat (List.length l)) == 0)%Q.
Proof.
  destruct l as [|x l]; [congruence|]. intros _ H.
  unfold Qeq in H. simpl in H. lia.
Qed.

Lemma summarize_nonempty (d : device) (size runs : Z) (times gfs : list Q) :
  times <> [] -> gfs <> [] ->
  exists m g,
    min times = inr m /\ max gfs = inr g /\
    summarize d size runs times gfs =
    inr {| device_ := str_device d;
           size := size;
           runs := runs;
           times_s := times;
           gflops := gfs;
           time_avg_s := (sum times / inject_Z (Z.of_nat (List.length times)))%Q;
           time_best_s := m;
           gflops_avg := (sum gfs / inject_Z (Z.of_nat (List.length gfs)))%Q;
           gflops_best := g |}.
Proof.
  intros Ht Hg. unfold summarize.
  rewrite (truediv_nonzero _ _ (len_nonzero _ Ht)).
  rewrite (truediv_nonzero _ _ (len_nonzero _ Hg)).
  destruct times as [|t ts]; [congruence|].
  destruct gfs as [|g gs]; [congruence|].
  cbn [min max]. eauto.
Qed.

(** With no sample, the first statistic to be evaluated is the average of
    the times, and its division raises. *)
Lemma summarize_empty (d : device) (size runs : Z) (gfs : list Q) :
  summarize d size runs [] gfs = inl ZeroDivisionError.
Proof.
  reflexivity.
Qed.

(** The whole run when allocation succeeds and no timed trial has a zero
    elapsed time: the effects, and the summary. *)
Lemma bench_run (E : env) (d : device) (size runs : Z) (w : world) :
  alloc_ok E d size ->
  Forall (fun t => ~ (t == 0)%Q) (elapsed_from E (time_calls w) (Z.to_nat runs)) ->
  torch_matmul_bench E d size runs w =
  (advance w (prologue_events d size
              ++ List.concat (repeat (trial_events d) (Z.to_nat runs)))
           (2 * Z.to_nat runs),
   summarize d size runs
     (elapsed_from E (time_calls w) (Z.to_nat runs))
     (map (throughput size) (elapsed_from E (time_calls w) (Z.to_nat runs)))).
Proof.
  intros Hok Hnz. rewrite (bench_unfold E d size runs w Hok).
  assert (Hk : time_calls (advance w (prologue_events d size) 0) = time_calls w)
    by (cbn; lia).
  rewrite timed_loop_run; rewrite range_length, Hk; [|exact Hnz].
  rewrite advance_advance. reflexivity.
Qed.

(** The run when allocation succeeds and some timed trial has a zero elapsed
    time. *)
Lemma bench_zero_elapsed (E : env) (d : device) (size runs : Z) (w : world) :
  alloc_ok E d size ->
  Exists (fun t => (t == 0)%Q) (elapsed_from E (time_calls w) (Z.to_nat runs)) ->
  exists w', torch_matmul_bench E d size runs w = (w', inl ZeroDivisionError).
Proof.
  intros Hok Hz. rewrite (bench_unfold E d size runs w Hok).
  destruct (timed_loop_zero E d size (range runs) ([], [])
              (advance w (prologue_events d size) 0)) as [w' Hw'].
  - rewrite range_length. cbn [advance time_calls].
    now rewrite Nat.add_0_r.
  - rewrite Hw'. eauto.
Qed.

(** The run with a repeat count that is not positive: the buffers are
    allocated, the warm-up runs, and the average divides by zero. *)
Lemma bench_no_trial (E : env) (d : device) (size runs : Z) (w : world) :
  alloc_ok E d size -> runs <= 0 ->
  torch_matmul_bench E d size runs w =
  (advance w (prologue_events d size) 0, inl ZeroDivisionError).
Proof.
  intros Hok Hr. rewrite (bench_unfold E d size runs w Hok).
  unfold range. replace (Z.to_nat runs) with O by lia. reflexivity.
Qed.

(** ** Device resolution *)

Lemma lower_auto : lower "auto" = "auto".
Proof. reflexivity. Qed.

(** C5: with the preference [auto] the device is the first available one in
    the order cuda, mps, cpu: cuda whenever CUDA is available; otherwise mps
    when torch has the mps backend and it reports itself available; otherwise
    cpu, which is so in particular on a host with neither accelerator. *)
Theorem pick_device_auto_priority (E : env) :
  pick_device E "auto" =
    inr (if cuda_is_available E then device_cuda
         else match backends_mps E with
              | Some true => device_mps
              | Some false | None => device_cpu
              end)
  /\ (cuda_is_available E = true -> pick_device E "auto" = inr device_cuda)
  /\ (cuda_is_available E = false -> backends_mps E = Some true ->
      pick_device E "auto" = inr device_mps)
  /\ (cuda_is_available E = false -> backends_mps E <> Some true ->
      pick_device E "auto" = inr device_cpu).
Proof.
  assert (H : pick_device E "auto" =
              inr (if cuda_is_available E then device_cuda
                   else match backends_mps E with
                        | Some true => device_mps
                        | Some false | None => device_cpu
                        end)).
  { unfold pick_device, mps_usable. rewrite lower_auto.
    change ("auto" =? "auto")%string with true. cbn [negb].
    destruct (cuda_is_available E); [reflexivity|].
    destruct (backends_mps E) as [[|]|]; reflexivity. }
  split; [exact H|]. split; [|split].
  - intros Hc. now rewrite H, Hc.
  - intros Hc Hm. now rewrite H, Hc, Hm.
  - intros Hc Hm. rewrite H, Hc.
    destruct (backends_mps E) as [[|]|]; [congruence | reflexivity | reflexivity].
Qed.

Lemma pick_device_auto_priority_witness :
  pick_device host_two_gpus "auto" = inr device_cuda
  /\ pick_device host_mps "auto" = inr device_mps
  /\ pick_device host_cpu "auto" = inr device_cpu
  /\ pick_device host_old_torch "auto" = inr device_cpu.
Proof.
  split; [|split; [|split]].
  - apply (proj1 (proj2 (pick_device_auto_priority host_two_gpus))). reflexivity.
  - apply (proj1 (proj2 (proj2 (pick_device_auto_priority host_mps))));
      reflexivity.
  - apply (proj2 (proj2 (proj2 (pick_device_auto_priority host_cpu))));
      [reflexivity | discriminate].
  - apply (proj2 (proj2 (proj2 (pick_device_auto_priority host_old_torch))));
      [reflexivity | discriminate].
Defined.



(** ** Throughput *)

Lemma giga_pos : (0 < giga)%Q.
Proof. reflexivity. Qed.

Lemma flops_pos (size : Z) : 0 < size -> (0 < inject_Z (2 * size ^ 3))%Q.
Proof.
  intros Hs. change 0%Q with (inject_Z 0). rewrite <- Zlt_Qlt.
  assert (0 < size ^ 3) by (apply Z.pow_pos_nonneg; lia). lia.
Qed.

Lemma throughput_antitone (size : Z) (t1 t2 : Q) :
  0 <= size -> (0 < t1)%Q -> (t1 <= t2)%Q ->
  (throughput size t2 <= throughput size t1)%Q.
Proof.
  intros Hs H1 H12. unfold throughput, Qdiv.
  assert (Hd1 : (0 < t1 * giga)%Q)
    by (apply Qmult_lt_0_compat; [exact H1 | exact giga_pos]).
  assert (Hd12 : (t1 * giga <= t2 * giga)%Q)
    by (apply Qmult_le_compat_r; [exact H12 | apply Qlt_le_weak, giga_pos]).
  assert (Hd2 : (0 < t2 * giga)%Q) by (eapply Qlt_le_trans; eassumption).
  assert (Ha : (0 <= inject_Z (2 * size ^ 3))%Q).
  { change 0%Q with (inject_Z 0). rewrite <- Zle_Qle.
    assert (0 <= size ^ 3) by (apply Z.pow_nonneg; lia). lia. }
  rewrite !(Qmult_comm (inject_Z (2 * size ^ 3))).
  apply Qmult_le_compat_r; [|exact Ha].
  apply Qle_shift_inv_l; [exact Hd1|].
  rewrite Qmult_comm.
  apply Qle_shift_div_r; [exact Hd2|].
  now rewrite Qmult_1_l.
Qed.

Lemma trial_gflops_rounded_exact (size : Z) (t : Q) :
  trial_gflops_rounded (fun x => x) size t = trial_gflops size t.
Proof.
  unfold trial_gflops_rounded, trial_gflops.
  now destruct (truediv (inject_Z (2 * size ^ 3)) (t * giga)).
Qed.



Lemma elapsed_from_nonempty (E : env) (k n : nat) :
  (1 <= n)%nat -> elapsed_from E k n <> [].
Proof.
  destruct n; [lia|]. discriminate.
Qed.

(** The summary a run returns, written out. *)
Lemma bench_returns (E : env) (d : device) (size nruns : Z) (w : world) :
  alloc_ok E d size ->
  1 <= nruns ->
  Forall (fun t => ~ (t == 0)%Q) (elapsed_from E (time_calls w) (Z.to_nat nruns)) ->
  let ts := elapsed_from E (time_calls w) (Z.to_nat nruns) in
  let gs := map (throughput size) ts in
  exists m g,
    min ts = inr m /\ max gs = inr g /\ ts <> [] /\
    torch_matmul_bench E d size nruns w =
    (advance w (prologue_events d size
                ++ List.concat (repeat (trial_events d) (Z.to_nat nruns)))
             (2 * Z.to_nat nruns),
     inr {| device_ := str_device d;
            size := size;
            runs := nruns;
            times_s := ts;
            gflops := gs;
            time_avg_s := (sum ts / inject_Z (Z.of_nat (List.length ts)))%Q;
            time_best_s := m;
            gflops_avg := (sum gs / inject_Z (Z.of_nat (List.length gs)))%Q;
            gflops_best := g |}).
Proof.
  intros Hok Hr Hnz ts gs.
  assert (Hts : ts <> []) by (apply elapsed_from_nonempty; lia).
  assert (Hgs : gs <> []).
  { intros H. apply map_eq_nil in H. contradiction. }
  destruct (summarize_nonempty d size nruns ts gs Hts Hgs) as (m & g & Hm & Hg & Hs).
  exists m, g. repeat split; try assumption.
  rewrite (bench_run E d size nruns w Hok Hnz). fold ts gs. now rewrite Hs.
Qed.



(** ** The summary of a run *)

(** C1: when the timed trials form a non-empty sequence, the benchmark
    returns a summary whose [runs] is the number of samples, whose
    [time_avg_s] is the arithmetic mean of the elapsed times, whose
    [time_best_s] is their minimum and whose [gflops_best] is the maximum of
    the per-trial throughputs. *)
Theorem bench_summary_invariant (E : env) (d : device) (size nruns : Z) (w : world) :
  alloc_ok E d size ->
  1 <= nruns ->
  Forall (fun t => ~ (t == 0)%Q) (elapsed_from E (time_calls w) (Z.to_nat nruns)) ->
  exists w' s,
    torch_matmul_bench E d size nruns w = (w', inr s)
    /\ times_s s = elapsed_from E (time_calls w) (Z.to_nat nruns)
    /\ gflops s = map (throughput size) (times_s s)
    /\ times_s s <> []
    /\ runs s = Z.of_nat (List.length (times_s s))
    /\ (time_avg_s s == arithmetic_mean (times_s s))%Q
    /\ is_minimum (time_best_s s) (times_s s)
    /\ is_maximum (gflops_best s) (gflops s).
Proof.
  intros Hok Hr Hnz.
  set (ts := elapsed_from E (time_calls w) (Z.to_nat nruns)) in *.
  assert (Hts : ts <> []) by (apply elapsed_from_nonempty; lia).
  assert (Hgs : map (throughput size) ts <> []).
  { intros H. apply map_eq_nil in H. contradiction. }
  destruct (summarize_nonempty d size nruns ts _ Hts Hgs) as (m & g & Hm & Hg & Hs).
  eexists. eexists. split.
  - rewrite (bench_run E d size nruns w Hok Hnz). fold ts. rewrite Hs. reflexivity.
  - cbn [times_s gflops runs time_avg_s time_best_s gflops_best].
    split; [reflexivity|]. split; [reflexivity|]. split; [exact Hts|].
    split; [unfold ts; rewrite elapsed_from_length; lia|].
    split; [unfold arithmetic_mean; now rewrite sum_total|].
    split; [now apply min_spec | now apply max_spec].
Qed.

Lemma bench_summary_invariant_witness :
  exists w' s,
    torch_matmul_bench host_cpu device_cpu 128 3 world0 = (w', inr s)
    /\ times_s s = elapsed_from host_cpu 0 3
    /\ gflops s = map (throughput 128) (times_s s)
    /\ times_s s <> []
    /\ runs s = Z.of_nat (List.length (times_s s))
    /\ (time_avg_s s == arithmetic_mean (times_s s))%Q
    /\ is_minimum (time_best_s s) (times_s s)
    /\ is_maximum (gflops_best s) (gflops s).
Proof.
  apply (bench_summary_invariant host_cpu device_cpu 128 3 world0).
  - split; [lia | reflexivity].
  - lia.
  - vm_compute. repeat constructor; discriminate.
Defined.

(** ** Zero samples *)

(** C2, as stated, fails: with no sample the summary is not refused by a
    check, its first division is by zero. *)
Lemma summarize_empty_not_usage_error :
  ~ signals_usage_error (summarize device_cpu 128 0 [] []).
Proof.
  intros [e [H Hne]]. rewrite summarize_empty in H.
  injection H as <-. now apply Hne.
Qed.

(** C2, amended: with no sample no summary is computed; evaluating
    [sum(times)/len(times)] raises ZeroDivisionError, and so does a whole run
    whose repeat count is not positive. *)
Theorem summarize_empty_zero_division (d : device) (size nruns : Z) (gfs : list Q) :
  summarize d size nruns [] gfs = inl ZeroDivisionError
  /\ (forall E w, alloc_ok E d size -> nruns <= 0 ->
        snd (torch_matmul_bench E d size nruns w) = inl ZeroDivisionError).
Proof.
  split; [reflexivity|].
  intros E w Hok Hr. now rewrite (bench_no_trial E d size nruns w Hok Hr).
Qed.

Lemma summarize_empty_zero_division_witness :
  snd (torch_matmul_bench host_cpu device_cpu 128 0 world0) = inl ZeroDivisionError.
Proof.
  apply (proj2 (summarize_empty_zero_division device_cpu 128 0 []) host_cpu world0).
  - split; [lia | reflexivity].
  - lia.
Defined.

(** ** The samples of a run *)

(** C6, as stated, fails: on a clock whose two readings around a trial
    coincide, the run with device cpu, size 128 and 3 repeats returns no
    sample at all. *)
Lemma bench_coarse_clock_no_samples :
  torch_matmul_bench host_cpu_coarse device_cpu 128 3 world0 =
    ({| trace := [EvRandn device_cpu 128; EvRandn device_cpu 128;
                  EvMatmul; EvMatmul; EvTime; EvMatmul; EvTime];
        time_calls := 2; utc_calls := 0 |}, inl ZeroDivisionError)
  /\ ~ returns_positive_samples host_cpu_coarse device_cpu 128 3 world0.
Proof.
  assert (H : torch_matmul_bench host_cpu_coarse device_cpu 128 3 world0 =
    ({| trace := [EvRandn device_cpu 128; EvRandn device_cpu 128;
                  EvMatmul; EvMatmul; EvTime; EvMatmul; EvTime];
        time_calls := 2; utc_calls := 0 |}, inl ZeroDivisionError))
    by (vm_compute; reflexivity).
  split; [exact H|].
  intros (w' & s & Hs & _). rewrite H in Hs. discriminate.
Qed.

Lemma Forall_pos_nonzero (l : list Q) :
  Forall (fun t => (0 < t)%Q) l -> Forall (fun t => ~ (t == 0)%Q) l.
Proof.
  apply Forall_impl. intros t Ht H. rewrite H in Ht. discriminate.
Qed.

(** C6, amended: for a size > 0 and a repeat count >= 1, when the allocation
    succeeds and the clock advances across every timed trial, the run returns
    exactly that many samples, each with a positive elapsed time. *)
Theorem bench_returns_samples (E : env) (d : device) (size nruns : Z) (w : world) :
  0 < size ->
  1 <= nruns ->
  (forall k, randn_error E k d size = None) ->
  Forall (fun t => (0 < t)%Q) (elapsed_from E (time_calls w) (Z.to_nat nruns)) ->
  returns_positive_samples E d size nruns w.
Proof.
  intros Hs Hr Ha Hpos.
  assert (Hok : alloc_ok E d size) by (split; [lia | exact Ha]).
  set (ts := elapsed_from E (time_calls w) (Z.to_nat nruns)) in *.
  assert (Hts : ts <> []) by (apply elapsed_from_nonempty; lia).
  assert (Hgs : map (throughput size) ts <> []).
  { intros H. apply map_eq_nil in H. contradiction. }
  destruct (summarize_nonempty d size nruns ts _ Hts Hgs) as (m & g & _ & _ & Hsum).
  eexists. eexists. split.
  - rewrite (bench_run E d size nruns w Hok (Forall_pos_nonzero _ Hpos)).
    fold ts. rewrite Hsum. reflexivity.
  - cbn [times_s]. split; [|exact Hpos].
    unfold ts. rewrite elapsed_from_length. lia.
Qed.

Lemma bench_returns_samples_witness :
  returns_positive_samples host_cpu device_cpu 128 3 world0.
Proof.
  apply (bench_returns_samples host_cpu device_cpu 128 3 world0).
  - lia.
  - lia.
  - reflexivity.
  - vm_compute. repeat constructor.
Defined.

(** ** Warm-up and synchronization *)

Lemma sync_events_cases (d : device) :
  (dev_type d = "cuda" /\ sync_events d = [EvCudaSynchronize])
  \/ (dev_type d <> "cuda" /\ sync_events d = []).
Proof.
  unfold sync_events. destruct (String.eqb_spec (dev_type d) "cuda"); auto.
Qed.

(** The untimed part of a run: two multiplications, no clock reading. *)
Lemma prologue_two_warmups (d : device) (size : Z) :
  List.length (filter is_matmul (prologue_events d size)) = 2%nat
  /\ filter is_time (prologue_events d size) = [].
Proof.
  unfold prologue_events, warmup_events.
  destruct (sync_events_cases d) as [[_ ->]|[_ ->]]; split; reflexivity.
Qed.

(** A timed trial: one multiplication between its two clock readings. *)
Lemma trial_one_matmul (d : device) :
  filter is_matmul (trial_events d) = [EvMatmul]
  /\ filter is_time (trial_events d) = [EvTime; EvTime].
Proof.
  unfold trial_events.
  destruct (sync_events_cases d) as [[_ ->]|[_ ->]]; split; reflexivity.
Qed.

Lemma barrier_trials_cuda (d : device) (n : nat) :
  dev_type d = "cuda" ->
  barrier_after_each_matmul (List.concat (repeat (trial_events d) n)) = true.
Proof.
  intros Hd. unfold trial_events, sync_events. rewrite Hd.
  change ("cuda" =? "cuda")%string with true.
  induction n as [|n IH]; [reflexivity|].
  cbn [repeat List.concat app barrier_after_each_matmul]. exact IH.
Qed.

(** On a CUDA device every multiplication of the run, warm-up or timed, is
    followed by the barrier before anything else happens. *)
Lemma bench_cuda_synchronized (d : device) (size : Z) (n : nat) :
  dev_type d = "cuda" ->
  barrier_after_each_matmul
    (prologue_events d size ++ List.concat (repeat (trial_events d) n)) = true.
Proof.
  intros Hd. unfold prologue_events, warmup_events, sync_events. rewrite Hd.
  change ("cuda" =? "cuda")%string with true.
  cbn [app barrier_after_each_matmul].
  now apply barrier_trials_cuda.
Qed.

Lemma no_sync_in_trials (d : device) (n : nat) :
  dev_type d <> "cuda" ->
  filter is_sync (List.concat (repeat (trial_events d) n)) = [].
Proof.
  intros Hd. unfold trial_events.
  destruct (sync_events_cases d) as [[H _]|[_ ->]]; [contradiction|].
  induction n as [|n IH]; [reflexivity|].
  cbn [repeat List.concat app filter is_sync]. exact IH.
Qed.

(** C9 at the device mps: torch runs MPS kernels asynchronously, yet the run
    issues no barrier at all; each timed trial reads the clock, launches the
    multiplication and reads the clock again. *)
Theorem bench_mps_unsynchronized (E : env) (size nruns : Z) (w : world) :
  alloc_ok E device_mps size ->
  1 <= nruns ->
  Forall (fun t => ~ (t == 0)%Q) (elapsed_from E (time_calls w) (Z.to_nat nruns)) ->
  is_async device_mps = true
  /\ trial_events device_mps = [EvTime; EvMatmul; EvTime]
  /\ exists w' s evs,
       torch_matmul_bench E device_mps size nruns w = (w', inr s)
       /\ trace w' = trace w ++ evs
       /\ filter is_sync evs = []
       /\ barrier_after_each_matmul evs = false.
Proof.
  intros Hok Hr Hnz.
  split; [reflexivity|]. split; [reflexivity|].
  set (ts := elapsed_from E (time_calls w) (Z.to_nat nruns)) in *.
  assert (Hts : ts <> []) by (apply elapsed_from_nonempty; lia).
  assert (Hgs : map (throughput size) ts <> []).
  { intros H. apply map_eq_nil in H. contradiction. }
  destruct (summarize_nonempty device_mps size nruns ts _ Hts Hgs)
    as (m & g & _ & _ & Hsum).
  eexists. eexists. eexists. split.
  - rewrite (bench_run E device_mps size nruns w Hok Hnz).
    fold ts. rewrite Hsum. reflexivity.
  - cbn [advance trace]. split; [reflexivity|]. split.
    + rewrite filter_app. rewrite no_sync_in_trials by discriminate.
      reflexivity.
    + reflexivity.
Qed.

Lemma bench_mps_unsynchronized_witness :
  is_async device_mps = true
  /\ trial_events device_mps = [EvTime; EvMatmul; EvTime]
  /\ exists w' s evs,
       torch_matmul_bench host_mps device_mps 4096 3 world0 = (w', inr s)
       /\ trace w' = trace world0 ++ evs
       /\ filter is_sync evs = []
       /\ barrier_after_each_matmul evs = false.
Proof.
  apply (bench_mps_unsynchronized host_mps 4096 3 world0).
  - split; [lia | reflexivity].
  - lia.
  - vm_compute. repeat constructor; discriminate.
Defined.

(** ** The capability snapshot *)

Lemma enumerate_cuda_error (E : env) (idx : list Z) (gpus gpus' : list GPUInfo)
    (e : exn) :
  enumerate_cuda E idx gpus = (gpus', inl e) ->
  exists i, cuda_get_device_properties E i = inl e.
Proof.
  revert gpus. induction idx as [|i idx IH]; intros gpus; cbn [enumerate_cuda].
  - discriminate.
  - destruct (cuda_get_device_properties E i) as [e'|p] eqn:Hp.
    + intros [= _ <-]. eauto.
    + apply IH.
Qed.

Lemma try_pass_catchable {A} (body : exn + A) (dflt : exn -> A) :
  catchable body ->
  try_pass body dflt = inr (match body with inr a => a | inl e => dflt e end).
Proof.
  unfold try_pass, catchable. destruct body as [e|a]; [|reflexivity].
  now intros ->.
Qed.

(** [get_gpus] never raises for a catchable failure: the list ends with an
    error entry instead. *)
Lemma get_gpus_degrades (E : env) :
  probes_catchable E ->
  exists gs, get_gpus E = inr gs
    /\ (forall e, cuda_is_available E = true -> cuda_device_count E = inl e ->
          gs = [gpu_error_entry e])
    /\ (cuda_is_available E = false -> mps_usable E = false -> gs = []).
Proof.
  intros (_ & Hcount & Hprops). unfold get_gpus.
  destruct (cuda_is_available E).
  - destruct (cuda_device_count E) as [e|n] eqn:Hn.
    + cbn in Hcount. rewrite Hcount. eexists. split; [reflexivity|].
      split; [|discriminate]. now intros e' _ [= <-].
    + destruct (enumerate_cuda E (range n) []) as [gpus [e|[]]] eqn:Hen.
      * destruct (enumerate_cuda_error _ _ _ _ _ Hen) as [i Hi].
        specialize (Hprops i). rewrite Hi in Hprops. cbn in Hprops.
        rewrite Hprops. eexists. split; [reflexivity|].
        split; [discriminate|discriminate].
      * eexists. split; [reflexivity|]. split; discriminate.
  - destruct (mps_usable E).
    + eexists. split; [reflexivity|]. split; discriminate.
    + eexists. split; [reflexivity|]. split; [discriminate|reflexivity].
Qed.


(** C7 on a torch without the mps backend: every optional probe may work,
    and still the snapshot is not produced; line 156 reads
    [torch.backends.mps] before the default of its [getattr] can apply. *)
Theorem snapshot_aborts_without_mps_backend (E : env) (w : world) :
  probes_catchable E ->
  backends_mps E = None ->
  get_system_snapshot E w =
    (tick_utc w, inl (AttributeError "module 'torch.backends' has no attribute 'mps'"))
  /\ mps_usable E = false.
Proof.
  intros (Hps & _ & _) Hmps. split; [|unfold mps_usable; now rewrite Hmps].
  unfold get_system_snapshot, probe_mps. rewrite Hmps.
  destruct (psutil E) as [ps|] eqn:Hpsu; [|reflexivity].
  destruct (Hps ps eq_refl) as [Hvm Hcpu].
  unfold probe_ram, probe_cpu.
  assert (Hram : catchable
            (let? vm := ps_virtual_memory ps in
             inr (Some (bytes_to_gb (fst vm)), Some (bytes_to_gb (snd vm))))).
  { destruct (ps_virtual_memory ps); exact Hvm. }
  rewrite (try_pass_catchable _ _ Hram).
  pose proof (Hcpu true) as Ht. pose proof (Hcpu false) as Hf.
  destruct (ps_cpu_count ps true) as [e1|lg] eqn:H1.
  - cbv beta iota.
    rewrite (try_pass_catchable (A := option Z * option Z) (inl e1) _ Ht).
    reflexivity.
  - assert (Hph : catchable (let? physical := ps_cpu_count ps false in
                             inr (lg, physical))).
    { destruct (ps_cpu_count ps false); exact Hf. }
    cbv beta iota. rewrite (try_pass_catchable _ _ Hph). reflexivity.
Qed.

Lemma host_probes_catchable (cuda : bool) (mps : option bool) (clock : nat -> Q) :
  probes_catchable (host cuda mps clock).
Proof.
  split; [|split].
  - intros ps [= <-]. split; [exact I | intros b; exact I].
  - exact I.
  - intros i. reflexivity.
Qed.

Lemma snapshot_aborts_without_mps_backend_witness :
  get_system_snapshot host_old_torch world0 =
    (tick_utc world0,
     inl (AttributeError "module 'torch.backends' has no attribute 'mps'"))
  /\ mps_usable host_old_torch = false.
Proof.
  apply (snapshot_aborts_without_mps_backend host_old_torch world0).
  - apply host_probes_catchable.
  - reflexivity.
Defined.

(** ** Rejection of a configuration *)

Lemma parse_args_invalid (a : args) :
  ~ In (arg_device a) device_choices -> parse_args a = inl (SystemExit 2).
Proof.
  intros Hn. unfold parse_args.
  destruct (existsb (String.eqb (arg_device a)) device_choices) eqn:Hex;
    [|reflexivity].
  apply existsb_exists in Hex. destruct Hex as (x & Hin & Heq).
  apply String.eqb_eq in Heq. subst x. contradiction.
Qed.

Lemma parse_args_inr (a a' : args) : parse_args a = inr a' -> a' = a.
Proof.
  unfold parse_args. destruct (existsb _ _); [|discriminate]. now intros [= <-].
Qed.

(** The snapshot leaves the trace as it was. *)
Lemma snapshot_trace (E : env) (w : world) :
  trace (fst (get_system_snapshot E w)) = trace w.
Proof.
  unfold get_system_snapshot, bind, lift, utcnow, ret.
  repeat match goal with
         | |- context [match ?x with _ => _ end] => destruct x
         end; reflexivity.
Qed.

(** A negative size is refused by the first allocation. *)
Lemma bench_negative_size (E : env) (d : device) (size nruns : Z) (w : world) :
  size < 0 ->
  torch_matmul_bench E d size nruns w =
  (w, inl (RuntimeError "Trying to create tensor with negative dimension")).
Proof.
  intros Hs. unfold torch_matmul_bench, bind, torch_randn.
  apply Z.ltb_lt in Hs. now rewrite Hs.
Qed.

(** C3, as stated, fails: with a repeat count of 0 on a plain CPU host the
    program allocates both buffers and runs the warm-up before it fails. *)
Lemma main_zero_runs_allocates :
  main host_cpu {| arg_device := "cpu"; arg_size := 128; arg_runs := 0;
                   arg_outdir := "benchmarks/results"; arg_pretty := false |}
       world0 =
    ({| trace := [EvMakedirs "benchmarks/results";
                  EvRandn device_cpu 128; EvRandn device_cpu 128;
                  EvMatmul; EvMatmul];
        time_calls := 0; utc_calls := 2 |}, inl ZeroDivisionError)
  /\ ~ rejects_before_allocation host_cpu
         {| arg_device := "cpu"; arg_size := 128; arg_runs := 0;
            arg_outdir := "benchmarks/results"; arg_pretty := false |}.
Proof.
  match goal with |- ?L = ?R /\ _ => assert (H : L = R) by (vm_compute; reflexivity) end.
  split; [exact H|].
  intros (w' & e & Hm & Hf). rewrite H in Hm.
  injection Hm as <- _. discriminate.
Qed.

(** C3, amended: a device name outside the choices ends the program with
    status 2 before it does anything, and a negative size makes the first
    allocation raise; in both cases the program fails with no buffer
    allocated. *)
Theorem main_rejects_before_allocation (E : env) (argv : args) :
  (~ In (arg_device argv) device_choices ->
   main E argv world0 = (world0, inl (SystemExit 2)))
  /\ (~ In (arg_device argv) device_choices \/ arg_size argv < 0 ->
      rejects_before_allocation E argv).
Proof.
  assert (Hdev : ~ In (arg_device argv) device_choices ->
                 main E argv world0 = (world0, inl (SystemExit 2))).
  { intros Hn. unfold main, bind at 1, lift.
    now rewrite (parse_args_invalid argv Hn). }
  split; [exact Hdev|].
  intros [Hn|Hs].
  - exists world0, (SystemExit 2). split; [now apply Hdev | reflexivity].
  - unfold rejects_before_allocation, main.
    unfold bind at 1. unfold lift at 1.
    destruct (parse_args argv) as [e|a] eqn:Hp.
    { exists world0, e. split; reflexivity. }
    apply parse_args_inr in Hp. subst a.
    unfold bind at 1. unfold emit at 1.
    unfold bind at 1. unfold utcnow at 1.
    unfold bind at 1.
    match goal with
    | |- context [get_system_snapshot E ?w] =>
        pose proof (snapshot_trace E w) as Ht;
        destruct (get_system_snapshot E w) as [w1 [e|snap]]
    end; cbn [fst trace app] in Ht.
    { exists w1, e. split; [reflexivity|]. now rewrite Ht. }
    unfold bind at 1. unfold lift at 1.
    destruct (pick_device E (arg_device argv)) as [e|d].
    { exists w1, e. split; [reflexivity|]. now rewrite Ht. }
    unfold bind at 1. rewrite (bench_negative_size E d _ _ w1 Hs).
    eexists. eexists. split; [reflexivity|]. now rewrite Ht.
Qed.

Lemma main_rejects_before_allocation_witness :
  main host_cpu {| arg_device := "tpu"; arg_size := 128; arg_runs := 3;
                   arg_outdir := "benchmarks/results"; arg_pretty := false |}
       world0 = (world0, inl (SystemExit 2))
  /\ rejects_before_allocation host_cpu
       {| arg_device := "cpu"; arg_size := -4; arg_runs := 3;
          arg_outdir := "benchmarks/results"; arg_pretty := false |}.
Proof.
  split.
  - apply (proj1 (main_rejects_before_allocation host_cpu
             {| arg_device := "tpu"; arg_size := 128; arg_runs := 3;
                arg_outdir := "benchmarks/results"; arg_pretty := false |})).
    vm_compute. intuition discriminate.
  - apply (proj2 (main_rejects_before_allocation host_cpu
             {| arg_device := "cpu"; arg_size := -4; arg_runs := 3;
                arg_outdir := "benchmarks/results"; arg_pretty := false |})).
    right. reflexivity.
Defined.

(** A size of 0 is not rejected at all: the program allocates two empty
    buffers and completes. *)
Lemma main_zero_size_completes :
  exists w',
    main host_cpu {| arg_device := "cpu"; arg_size := 0; arg_runs := 1;
                     arg_outdir := "benchmarks/results"; arg_pretty := false |}
         world0 = (w', inr tt)
    /\ filter is_randn (trace w') = [EvRandn device_cpu 0; EvRandn device_cpu 0].
Proof.
  eexists. split; [vm_compute; reflexivity | reflexivity].
Qed.

(** ** The JSON document *)

Section Documents.

Lemma dict_set_fresh (k : string) (v : json) (d : list (string * json)) :
  existsb (String.eqb k) (map fst d) = false ->
  dict_set k v d = d ++ [(k, v)].
Proof.
  induction d as [|[k' v'] d IH]; intros H; [reflexivity|].
  cbn [map fst existsb] in H. apply orb_false_iff in H. destruct H as [Hk Hd].
  cbn [dict_set app]. rewrite String.eqb_sym, Hk. now rewrite IH.
Qed.

Lemma existsb_absent (k : string) (seen keys : list string) :
  (forall x, In x keys -> In x seen) ->
  existsb (String.eqb k) seen = false ->
  existsb (String.eqb k) keys = false.
Proof.
  intros Hsub Hseen.
  destruct (existsb (String.eqb k) keys) eqn:H; [|reflexivity].
  apply existsb_exists in H. destruct H as (x & Hin & Hx).
  assert (Ht : existsb (String.eqb k) seen = true).
  { apply existsb_exists. exists x. split; [now apply Hsub | exact Hx]. }
  congruence.
Qed.

Lemma fold_dict_set_unique (d : list (string * json)) :
  forall (seen : list string) (acc : list (string * json)),
    (forall x, In x (map fst acc) -> In x seen) ->
    keys_unique seen d = true ->
    fold_left (fun d kv => dict_set (fst kv) (snd kv) d) d acc = acc ++ d.
Proof.
  induction d as [|[k v] d IH]; intros seen acc Hsub Hu.
  - cbn. now rewrite app_nil_r.
  - cbn [keys_unique] in Hu. apply andb_true_iff in Hu. destruct Hu as [Hk Hu].
    apply negb_true_iff in Hk.
    cbn [fold_left fst snd].
    rewrite (dict_set_fresh k v acc (existsb_absent k seen _ Hsub Hk)).
    rewrite (IH (k :: seen) (acc ++ [(k, v)])).
    + now rewrite <- app_assoc.
    + intros x Hx. rewrite map_app in Hx. apply in_app_or in Hx.
      destruct Hx as [Hx|[Hx|[]]]; [right; now apply Hsub | left; exact Hx].
    + exact Hu.
Qed.

(** Loading the members of an object that names no key twice gives the
    members, in their order. *)
Lemma dict_of_pairs_unique (d : list (string * json)) :
  keys_unique [] d = true -> dict_of_pairs d = d.
Proof.
  intros Hu. unfold dict_of_pairs.
  now rewrite (fold_dict_set_unique d [] []); [|intros x []|exact Hu].
Qed.

(** A later member replaces the value of an earlier one of the same name. *)
Lemma dict_of_pairs_duplicate :
  dict_of_pairs [("a", JInt 1); ("b", JInt 2); ("a", JInt 3)]
  = [("a", JInt 3); ("b", JInt 2)].
Proof. reflexivity. Qed.

(** What [json.load] makes of what [json.dump] wrote is the value dumped. *)
Lemma json_load_dump (j : json) :
  dict_like j = true -> json_load (json_dump j) = j.
Proof.
  induction j as [|b|n|x|s|l IH|d IH] using json_nested_ind; intros Hd;
    try reflexivity.
  - now destruct b.
  - cbn [json_dump json_load]. f_equal. cbn [dict_like] in Hd.
    induction IH as [|y l Hy _ IHl]; [reflexivity|].
    cbn [forallb] in Hd. apply andb_true_iff in Hd. destruct Hd as [H1 H2].
    cbn [map]. now rewrite Hy, IHl.
  - cbn [json_dump json_load]. f_equal. cbn [dict_like] in Hd.
    apply andb_true_iff in Hd. destruct Hd as [Hu Hv].
    rewrite map_map. cbn [fst snd].
    assert (Hm : map (fun kv : string * json =>
                        (fst kv, json_load (json_dump (snd kv)))) d = d).
    { clear Hu. induction IH as [|[k v] d Hy _ IHd]; [reflexivity|].
      cbn [forallb snd] in Hv. apply andb_true_iff in Hv. destruct Hv as [H1 H2].
      cbn [map fst snd]. cbn [snd] in Hy. now rewrite Hy, IHd. }
    rewrite Hm. now apply dict_of_pairs_unique.
Qed.

Lemma as_list_map {A} (f : json -> option A) (g : A -> json) (l : list A) :
  (forall a, f (g a) = Some a) -> as_list f (map g l) = Some l.
Proof.
  intros H. induction l as [|a l IH]; [reflexivity|].
  cbn [map as_list]. now rewrite H, IH.
Qed.

Lemma optional_str (o : option string) :
  as_optional as_str (opt_json JStr o) = Some o.
Proof. now destruct o. Qed.

Lemma optional_int (o : option Z) :
  as_optional as_int (opt_json JInt o) = Some o.
Proof. now destruct o. Qed.

Lemma optional_float (o : option Q) :
  as_optional as_float (opt_json JFloat o) = Some o.
Proof. now destruct o. Qed.

Lemma read_gpu_asdict (g : GPUInfo) : read_gpu (JDict (asdict_gpu g)) = Some g.
Proof.
  destruct g as [name memory cap].
  unfold read_gpu, asdict_gpu, field.
  cbn [lookup String.eqb Ascii.eqb Bool.eqb gpu_name memory_gb capability as_str].
  now rewrite optional_float, optional_str.
Qed.

Lemma read_run_asdict (r : BenchRun) : read_run (JDict (asdict_run r)) = Some r.
Proof. now destruct r. Qed.

Lemma read_snapshot_asdict (s : SystemSnapshot) :
  read_snapshot (JDict (asdict_snapshot s)) = Some s.
Proof.
  destruct s.
  unfold read_snapshot, asdict_snapshot, field.
  cbn [lookup String.eqb Ascii.eqb Bool.eqb as_str as_bool
       timestamp os os_release arch python torch cuda_available mps_available
       cuda_version cpu_logical cpu_physical ram_total_gb ram_available_gb gpus].
  rewrite !optional_str, !optional_int, !optional_float.
  now rewrite (as_list_map read_gpu (fun g => JDict (asdict_gpu g)) _
                 read_gpu_asdict).
Qed.

Lemma read_report_fields (now : string) (snap : SystemSnapshot) (mem : json)
    (s : BenchSummary) (rs : list BenchRun) :
  read_report (report now snap mem s rs) = Some (report_fields now snap mem s rs).
Proof.
  unfold read_report, report, field.
  cbn [lookup String.eqb Ascii.eqb Bool.eqb as_str as_int as_float].
  rewrite read_snapshot_asdict.
  now rewrite (as_list_map read_run (fun r => JDict (asdict_run r)) _
                 read_run_asdict).
Qed.

Lemma dict_like_gpus (l : list GPUInfo) :
  forallb dict_like (map (fun g => JDict (asdict_gpu g)) l) = true.
Proof.
  induction l as [|g l IH]; [reflexivity|].
  cbn [map forallb]. rewrite IH, andb_true_r.
  destruct g as [name [m|] [c|]]; reflexivity.
Qed.

Lemma dict_like_runs (l : list BenchRun) :
  forallb dict_like (map (fun r => JDict (asdict_run r)) l) = true.
Proof.
  induction l as [|r l IH]; [reflexivity|].
  cbn [map forallb]. now rewrite IH, andb_true_r.
Qed.

Lemma dict_like_snapshot (s : SystemSnapshot) :
  dict_like (JDict (asdict_snapshot s)) = true.
Proof.
  destruct s as [ts o rel ar py tv cu mp cv cl cp rt ra gs].
  cbn [dict_like asdict_snapshot forallb snd
       timestamp os os_release arch python torch cuda_available mps_available
       cuda_version cpu_logical cpu_physical ram_total_gb ram_available_gb gpus].
  rewrite dict_like_gpus.
  now destruct cv, cl, cp, rt, ra.
Qed.

Lemma dict_like_report (now : string) (snap : SystemSnapshot) (mem : json)
    (s : BenchSummary) (rs : list BenchRun) :
  dict_like mem = true -> dict_like (report now snap mem s rs) = true.
Proof.
  intros Hmem. unfold report.
  pose proof (dict_like_snapshot snap) as Hs.
  assert (Hr : dict_like (JList (map (fun r => JDict (asdict_run r)) rs)) = true)
    by apply dict_like_runs.
  set (sys := JDict (asdict_snapshot snap)) in *.
  set (per_run := JList (map (fun r => JDict (asdict_run r)) rs)) in *.
  clearbody sys per_run.
  cbn [dict_like forallb snd keys_unique existsb negb andb].
  now rewrite Hs, Hmem, Hr.
Qed.

Lemma dict_like_names (E : env) (idx : list Z) (names : list json) :
  device_names E idx = inr names -> forallb dict_like names = true.
Proof.
  revert names. induction idx as [|i idx IH]; intros names H.
  - injection H as <-. reflexivity.
  - cbn [device_names] in H.
    destruct (cuda_get_device_name E i); [discriminate|].
    destruct (device_names E idx) as [|ns]; [discriminate|].
    injection H as <-. cbn [forallb dict_like]. now apply IH.
Qed.

(** What [gpu_memory_stats] returns is such a value. *)
Lemma gpu_memory_stats_dict_like (E : env) (mem : json) :
  gpu_memory_stats E = inr mem -> dict_like mem = true.
Proof.
  unfold gpu_memory_stats. intros H.
  destruct (cuda_is_available E).
  - destruct (cuda_mem_get_info E); [discriminate|].
    destruct (cuda_device_count E) as [|n]; [discriminate|].
    destruct (device_names E (range n)) as [|names] eqn:Hn; [discriminate|].
    injection H as <-. cbn [dict_like forallb snd].
    rewrite (dict_like_names E _ _ Hn). reflexivity.
  - destruct (mps_usable E); injection H as <-; reflexivity.
Qed.

End Documents.

(** C8: a report written as a JSON document and parsed back is the report:
    the parsed document is the value that was serialized, every field read
    from it is the field of the report, floats taken at their value, and two
    reports with the same document have the same fields.  The memory
    statistics [mem] are any value that is built of Python dicts, which have
    each key once. *)
Theorem report_round_trip (now : string) (snap : SystemSnapshot) (mem : json)
    (s : BenchSummary) (rs : list BenchRun) :
  dict_like mem = true ->
  json_load (json_dump (report now snap mem s rs)) = report now snap mem s rs
  /\ read_report (json_load (json_dump (report now snap mem s rs)))
     = Some (report_fields now snap mem s rs)
  /\ (forall now' snap' mem' s' rs',
        json_dump (report now' snap' mem' s' rs')
        = json_dump (report now snap mem s rs) ->
        dict_like mem' = true ->
        report_fields now' snap' mem' s' rs' = report_fields now snap mem s rs).
Proof.
  intros Hmem.
  assert (H : json_load (json_dump (report now snap mem s rs))
              = report now snap mem s rs)
    by (apply json_load_dump; now apply dict_like_report).
  split; [exact H|]. split; [rewrite H; apply read_report_fields|].
  intros now' snap' mem' s' rs' Heq Hmem'.
  assert (H' : json_load (json_dump (report now' snap' mem' s' rs'))
               = report now' snap' mem' s' rs')
    by (apply json_load_dump; now apply dict_like_report).
  rewrite Heq, H in H'.
  pose proof (read_report_fields now snap mem s rs) as R.
  rewrite H', read_report_fields in R. congruence.
Qed.

Lemma report_round_trip_witness :
  read_report
    (json_load
       (json_dump
          (report "2024-06-01T12:00:03" sample_snapshot sample_memory
                  sample_summary sample_runs)))
  = Some (report_fields "2024-06-01T12:00:03" sample_snapshot sample_memory
                        sample_summary sample_runs)
  /\ gpu_memory_stats host_cpu = inr sample_memory.
Proof.
  split; [|reflexivity].
  apply (proj1 (proj2 (report_round_trip "2024-06-01T12:00:03" sample_snapshot
                         sample_memory sample_summary sample_runs eq_refl))).
Defined.

(** * Further properties of the pipeline *)

(** ** Statistics of a summary *)

(** X2: when every elapsed time is positive, the best throughput is the
    throughput of the best time. *)
Theorem bench_best_throughput_at_best_time (E : env) (d : device) (size nruns : Z)
    (w : world) :
  alloc_ok E d size ->
  1 <= nruns ->
  Forall (fun t => (0 < t)%Q) (elapsed_from E (time_calls w) (Z.to_nat nruns)) ->
  exists w' s,
    torch_matmul_bench E d size nruns w = (w', inr s)
    /\ (gflops_best s == throughput size (time_best_s s))%Q.
Proof.
  intros Hok Hr Hpos.
  destruct (bench_returns E d size nruns w Hok Hr (Forall_pos_nonzero _ Hpos))
    as (m & g & Hm & Hg & Hts & Hb).
  eexists. eexists. split; [exact Hb|]. cbn [time_best_s gflops_best].
  apply min_spec in Hm. apply max_spec in Hg.
  destruct Hm as [Hmin Hmle]. destruct Hg as [Hgin Hgle].
  rewrite Forall_forall in Hpos.
  apply Qle_antisym.
  - apply in_map_iff in Hgin. destruct Hgin as (t & <- & Ht).
    apply throughput_antitone; [apply Hok | now apply Hpos | now apply Hmle].
  - apply Hgle. now apply in_map.
Qed.

Lemma bench_best_throughput_at_best_time_witness :
  exists w' s,
    torch_matmul_bench host_cpu device_cpu 128 3 world0 = (w', inr s)
    /\ (gflops_best s == throughput 128 (time_best_s s))%Q.
Proof.
  apply (bench_best_throughput_at_best_time host_cpu device_cpu 128 3 world0).
  - split; [lia | reflexivity].
  - lia.
  - vm_compute. repeat constructor.
Defined.

(** ** Outcomes of a run *)

Lemma nonzero_or_zero (l : list Q) :
  Forall (fun t => ~ (t == 0)%Q) l \/ Exists (fun t => (t == 0)%Q) l.
Proof.
  induction l as [|x l [IH|IH]].
  - left. constructor.
  - destruct (Qeq_dec x 0) as [Hx|Hx].
    + right. now constructor.
    + left. now constructor.
  - right. now constructor 2.
Qed.

(** X3: once both allocations succeed a run has two outcomes only: a
    summary, exactly when the repeat count is at least 1 and no timed trial
    has a zero elapsed time, and ZeroDivisionError otherwise. *)
Theorem bench_outcomes (E : env) (d : device) (size nruns : Z) (w : world) :
  alloc_ok E d size ->
  ((exists w' s, torch_matmul_bench E d size nruns w = (w', inr s))
   /\ 1 <= nruns
   /\ Forall (fun t => ~ (t == 0)%Q) (elapsed_from E (time_calls w) (Z.to_nat nruns)))
  \/
  ((exists w', torch_matmul_bench E d size nruns w = (w', inl ZeroDivisionError))
   /\ (nruns <= 0
       \/ Exists (fun t => (t == 0)%Q) (elapsed_from E (time_calls w) (Z.to_nat nruns)))).
Proof.
  intros Hok.
  destruct (nonzero_or_zero (elapsed_from E (time_calls w) (Z.to_nat nruns)))
    as [Hnz|Hz].
  - destruct (Z_le_gt_dec nruns 0) as [Hr|Hr].
    + right. split; [|now left].
      eexists. apply (bench_no_trial E d size nruns w Hok Hr).
    + left. split; [|split; [lia | exact Hnz]].
      destruct (bench_returns E d size nruns w Hok ltac:(lia) Hnz)
        as (m & g & _ & _ & _ & Hb).
      eauto.
  - right. split; [|now right].
    now apply bench_zero_elapsed.
Qed.

Lemma bench_outcomes_witness :
  ((exists w' s, torch_matmul_bench host_cpu_coarse device_cpu 128 3 world0 = (w', inr s))
   /\ 1 <= 3
   /\ Forall (fun t => ~ (t == 0)%Q) (elapsed_from host_cpu_coarse 0 3))
  \/
  ((exists w', torch_matmul_bench host_cpu_coarse device_cpu 128 3 world0
               = (w', inl ZeroDivisionError))
   /\ (3 <= 0
       \/ Exists (fun t => (t == 0)%Q) (elapsed_from host_cpu_coarse 0 3))).
Proof.
  apply (bench_outcomes host_cpu_coarse device_cpu 128 3 world0).
  split; [lia | reflexivity].
Defined.

Section FirstZero.

Variable E : env.
Variable d : device.
Variable size : Z.

Lemma timed_loop_first_zero (j : nat) :
  forall (idx : list Z) (acc : list Q * list Q) (w : world),
  (j < List.length idx)%nat ->
  Forall (fun t => ~ (t == 0)%Q) (elapsed_from E (time_calls w) j) ->
  (elapsed_at E (time_calls w + 2 * j) == 0)%Q ->
  for_each idx (timed_trial E d size) acc w =
  (advance w (List.concat (repeat (trial_events d) (S j))) (2 * S j),
   inl ZeroDivisionError).
Proof.
  induction j as [|j IH]; intros idx acc w Hj Hnz Hz.
  - destruct idx as [|i idx]; [cbn in Hj; lia|].
    cbn [for_each]. unfold bind at 1. rewrite timed_trial_run.
    replace (time_calls w + 2 * 0)%nat with (time_calls w) in Hz by lia.
    rewrite (trial_gflops_zero _ _ Hz).
    cbn [repeat List.concat]. now rewrite app_nil_r.
  - destruct idx as [|i idx]; [cbn in Hj; lia|].
    cbn [List.length] in Hj. cbn [elapsed_from] in Hnz.
    inversion Hnz as [|t l Ht Hl]; subst.
    cbn [for_each]. unfold bind at 1. rewrite timed_trial_run.
    rewrite (trial_gflops_nonzero _ _ Ht).
    rewrite (IH idx _ (advance w (trial_events d) 2)).
    + rewrite advance_advance. cbn [repeat List.concat].
      now replace (2 + 2 * S j)%nat with (2 * S (S j))%nat by lia.
    + lia.
    + cbn [advance time_calls].
      now replace (time_calls w + 2)%nat with (S (S (time_calls w))) by lia.
    + cbn [advance time_calls].
      now replace (time_calls w + 2 + 2 * j)%nat
        with (time_calls w + 2 * S j)%nat by lia.
Qed.

End FirstZero.

(** X4: a run stops at the first timed trial whose elapsed time is zero:
    that trial's multiplication has run, the later trials have not, and the
    run raises ZeroDivisionError. *)
Theorem bench_stops_at_first_zero (E : env) (d : device) (size nruns : Z)
    (w : world) (j : nat) :
  alloc_ok E d size ->
  (j < Z.to_nat nruns)%nat ->
  Forall (fun t => ~ (t == 0)%Q) (elapsed_from E (time_calls w) j) ->
  (elapsed_at E (time_calls w + 2 * j) == 0)%Q ->
  torch_matmul_bench E d size nruns w =
  (advance w (prologue_events d size
              ++ List.concat (repeat (trial_events d) (S j)))
           (2 * S j),
   inl ZeroDivisionError).
Proof.
  intros Hok Hj Hnz Hz. rewrite (bench_unfold E d size nruns w Hok).
  rewrite (timed_loop_first_zero E d size j).
  - now rewrite advance_advance.
  - now rewrite range_length.
  - cbn [advance time_calls]. now rewrite Nat.add_0_r.
  - cbn [advance time_calls]. now rewrite Nat.add_0_r.
Qed.

Lemma bench_stops_at_first_zero_witness :
  torch_matmul_bench host_cpu_coarse device_cpu 128 3 world0 =
  (advance world0 (prologue_events device_cpu 128
                   ++ List.concat (repeat (trial_events device_cpu) 1))
           2,
   inl ZeroDivisionError).
Proof.
  apply (bench_stops_at_first_zero host_cpu_coarse device_cpu 128 3 world0 0).
  - split; [lia | reflexivity].
  - vm_compute. lia.
  - constructor.
  - reflexivity.
Defined.

Lemma count_matmul_trials (d : device) (n : nat) :
  List.length (filter is_matmul (List.concat (repeat (trial_events d) n))) = n
  /\ List.length (filter is_time (List.concat (repeat (trial_events d) n))) = (2 * n)%nat.
Proof.
  induction n as [|n [IH1 IH2]]; [split; reflexivity|].
  cbn [repeat List.concat]. rewrite !filter_app, !length_app, IH1, IH2.
  destruct (trial_one_matmul d) as [-> ->]. cbn [List.length]. lia.
Qed.

(** X5: on a CUDA device a run that returns has done exactly this: two
    allocations, two warm-up multiplications, then one multiplication per
    trial between two clock readings, and every multiplication is
    immediately followed by the synchronization barrier. *)
Theorem bench_cuda_trace (E : env) (d : device) (size nruns : Z) (w : world) :
  dev_type d = "cuda" ->
  alloc_ok E d size ->
  1 <= nruns ->
  Forall (fun t => ~ (t == 0)%Q) (elapsed_from E (time_calls w) (Z.to_nat nruns)) ->
  exists w' s evs,
    torch_matmul_bench E d size nruns w = (w', inr s)
    /\ trace w' = trace w ++ evs
    /\ evs = [EvRandn d size; EvRandn d size;
              EvMatmul; EvCudaSynchronize; EvMatmul; EvCudaSynchronize]
             ++ List.concat (repeat [EvTime; EvMatmul; EvCudaSynchronize; EvTime]
                               (Z.to_nat nruns))
    /\ barrier_after_each_matmul evs = true
    /\ List.length (filter is_matmul evs) = (2 + Z.to_nat nruns)%nat
    /\ List.length (filter is_time evs) = (2 * Z.to_nat nruns)%nat.
Proof.
  intros Hd Hok Hr Hnz.
  destruct (bench_returns E d size nruns w Hok Hr Hnz) as (m & g & _ & _ & _ & Hb).
  eexists. eexists. eexists. split; [exact Hb|].
  cbn [advance trace]. split; [reflexivity|].
  assert (Hshape : prologue_events d size
                   ++ List.concat (repeat (trial_events d) (Z.to_nat nruns)) =
                   [EvRandn d size; EvRandn d size;
                    EvMatmul; EvCudaSynchronize; EvMatmul; EvCudaSynchronize]
                   ++ List.concat (repeat [EvTime; EvMatmul; EvCudaSynchronize; EvTime]
                                     (Z.to_nat nruns))).
  { unfold prologue_events, warmup_events, trial_events, sync_events.
    rewrite Hd. reflexivity. }
  split; [exact Hshape|].
  split; [now apply bench_cuda_synchronized|].
  rewrite !filter_app, !length_app.
  destruct (prologue_two_warmups d size) as [-> ->].
  destruct (count_matmul_trials d (Z.to_nat nruns)) as [-> ->].
  split; reflexivity.
Qed.

(** ** Probes *)

Lemma range_split (n k : Z) :
  0 <= k < n ->
  exists rest, range n = range k ++ k :: rest.
Proof.
  intros Hk. unfold range.
  replace (Z.to_nat n) with (Z.to_nat k + S (Z.to_nat n - S (Z.to_nat k)))%nat by lia.
  rewrite seq_app, map_app. cbn [seq map Nat.add].
  rewrite Z2Nat.id by lia. eauto.
Qed.

Lemma range_bounds (n i : Z) : In i (range n) -> 0 <= i < n.
Proof.
  unfold range. rewrite in_map_iff. intros (j & <- & Hj).
  apply in_seq in Hj. lia.
Qed.

Section Enumeration.

Variable E : env.
Variable p : Z -> cuda_props.

Lemma enumerate_cuda_ok (idx : list Z) (gpus : list GPUInfo) :
  (forall i, In i idx -> cuda_get_device_properties E i = inr (p i)) ->
  enumerate_cuda E idx gpus =
  (gpus ++ map (fun i => gpu_of_props (p i)) idx, inr tt).
Proof.
  revert gpus. induction idx as [|i idx IH]; intros gpus H.
  - cbn. now rewrite app_nil_r.
  - cbn [enumerate_cuda]. rewrite (H i) by now left.
    rewrite IH by (intros j Hj; apply H; now right).
    cbn [map]. now rewrite <- app_assoc.
Qed.

Lemma enumerate_cuda_fail (l1 l2 : list Z) (k : Z) (e : exn) (gpus : list GPUInfo) :
  (forall i, In i l1 -> cuda_get_device_properties E i = inr (p i)) ->
  cuda_get_device_properties E k = inl e ->
  enumerate_cuda E (l1 ++ k :: l2) gpus =
  (gpus ++ map (fun i => gpu_of_props (p i)) l1, inl e).
Proof.
  revert gpus. induction l1 as [|i l1 IH]; intros gpus H Hk.
  - cbn. rewrite Hk. now rewrite app_nil_r.
  - cbn [app enumerate_cuda]. rewrite (H i) by now left.
    rewrite IH; [|intros j Hj; apply H; now right | exact Hk].
    cbn [map]. now rewrite <- app_assoc.
Qed.

End Enumeration.

(** X6: with CUDA available, [get_gpus] lists the devices in index order,
    one entry per device; when the query of device [k] raises an ordinary
    exception it keeps the entries of the devices before [k] and ends the
    list with an error entry instead of raising. *)
Theorem get_gpus_enumeration (E : env) (p : Z -> cuda_props) (n : Z) :
  cuda_is_available E = true ->
  cuda_device_count E = inr n ->
  ((forall i, 0 <= i < n -> cuda_get_device_properties E i = inr (p i)) ->
   get_gpus E = inr (map (fun i => gpu_of_props (p i)) (range n)))
  /\ (forall k e,
        0 <= k < n ->
        (forall i, 0 <= i < k -> cuda_get_device_properties E i = inr (p i)) ->
        cuda_get_device_properties E k = inl e ->
        is_Exception e = true ->
        get_gpus E = inr (map (fun i => gpu_of_props (p i)) (range k)
                          ++ [gpu_error_entry e])).
Proof.
  intros Hc Hn. split.
  - intros Hall. unfold get_gpus. rewrite Hc, Hn.
    rewrite (enumerate_cuda_ok E p); [reflexivity|].
    intros i Hi. apply Hall. now apply range_bounds.
  - intros k e Hk Hbefore Hfail Hexc. unfold get_gpus. rewrite Hc, Hn.
    destruct (range_split n k Hk) as [rest ->].
    rewrite (enumerate_cuda_fail E p _ _ _ e); [|
      intros i Hi; apply Hbefore; now apply range_bounds | exact Hfail].
    now rewrite Hexc.
Qed.

Lemma get_gpus_enumeration_witness :
  get_gpus host_two_gpus = inr [gpu_of_props a100; gpu_of_props a100]
  /\ get_gpus host_gpu_fault =
     inr [gpu_of_props a100;
          gpu_error_entry (RuntimeError "CUDA error: unspecified launch failure")].
Proof.
  split.
  - apply (proj1 (get_gpus_enumeration host_two_gpus (fun _ => a100) 2
                    eq_refl eq_refl)).
    intros i Hi. cbn. unfold props_two_gpus.
    destruct (Z.eqb_spec i 0); [reflexivity|].
    destruct (Z.eqb_spec i 1); [reflexivity|lia].
  - apply (proj2 (get_gpus_enumeration host_gpu_fault (fun _ => a100) 2
                    eq_refl eq_refl) 1).
    + lia.
    + intros i Hi. cbn. destruct (Z.eqb_spec i 0); [reflexivity|lia].
    + reflexivity.
    + reflexivity.
Defined.

(** X7: when [torch.backends.mps] exists and the optional probes fail, if at
    all, with ordinary exceptions, the snapshot completes: the host facts are
    copied, a missing psutil leaves the four RAM and CPU fields [None], a
    failing [virtual_memory] leaves both RAM fields [None], a failing
    [cpu_count(logical=True)] leaves both CPU fields [None], and a failing
    [cpu_count(logical=False)] keeps the logical count and leaves the physical
    one [None]. *)
Theorem snapshot_records_unknown (E : env) (w : world) (b : bool) :
  probes_catchable E ->
  backends_mps E = Some b ->
  exists snap,
    get_system_snapshot E w = (tick_utc w, inr snap)
    /\ timestamp snap = (utcnow_isoformat E (utc_calls w) ++ "Z")%string
    /\ os snap = platform_system E
    /\ cuda_available snap = cuda_is_available E
    /\ mps_available snap = b
    /\ get_gpus E = inr (gpus snap)
    /\ (psutil E = None ->
          ram_total_gb snap = None /\ ram_available_gb snap = None
          /\ cpu_logical snap = None /\ cpu_physical snap = None)
    /\ (forall ps, psutil E = Some ps ->
          (forall e, ps_virtual_memory ps = inl e ->
             ram_total_gb snap = None /\ ram_available_gb snap = None)
          /\ (forall t a, ps_virtual_memory ps = inr (t, a) ->
                ram_total_gb snap = Some (bytes_to_gb t)
                /\ ram_available_gb snap = Some (bytes_to_gb a))
          /\ (forall e, ps_cpu_count ps true = inl e ->
                cpu_logical snap = None /\ cpu_physical snap = None)
          /\ (forall lg e, ps_cpu_count ps true = inr lg ->
                ps_cpu_count ps false = inl e ->
                cpu_logical snap = lg /\ cpu_physical snap = None)
          /\ (forall lg ph, ps_cpu_count ps true = inr lg ->
                ps_cpu_count ps false = inr ph ->
                cpu_logical snap = lg /\ cpu_physical snap = ph)).
Proof.
  intros Hc Hmps.
  destruct (get_gpus_degrades E Hc) as (gs & Hgs & _ & _).
  destruct Hc as (Hps & _ & _).
  unfold get_system_snapshot, probe_mps. rewrite Hmps, Hgs.
  destruct (psutil E) as [ps|] eqn:Hpsu.
  - destruct (Hps ps eq_refl) as [Hvm Hcpu].
    unfold probe_ram, probe_cpu.
    assert (Hram : catchable
              (let? vm := ps_virtual_memory ps in
               inr (Some (bytes_to_gb (fst vm)), Some (bytes_to_gb (snd vm))))).
    { destruct (ps_virtual_memory ps); exact Hvm. }
    rewrite (try_pass_catchable _ _ Hram).
    pose proof (Hcpu true) as Ht. pose proof (Hcpu false) as Hf.
    destruct (ps_cpu_count ps true) as [e1|lg] eqn:H1.
    + cbv beta iota.
      rewrite (try_pass_catchable (A := option Z * option Z) (inl e1) _ Ht).
      eexists. split; [reflexivity|]. cbn.
      repeat (split; [reflexivity|]).
      split; [discriminate|].
      intros ps' [= <-]. split; [intros e He; rewrite He; now split|].
      split; [intros t a He; rewrite He; now split|].
      split; [now split|].
      split; intros; congruence.
    + assert (Hph : catchable (let? physical := ps_cpu_count ps false in
                               inr (lg, physical))).
      { destruct (ps_cpu_count ps false); exact Hf. }
      cbv beta iota. rewrite (try_pass_catchable _ _ Hph).
      eexists. split; [reflexivity|]. cbn.
      repeat (split; [reflexivity|]).
      split; [discriminate|].
      intros ps' [= <-]. split; [intros e He; rewrite He; now split|].
      split; [intros t a He; rewrite He; now split|].
      split; [intros; congruence|].
      split.
      * intros lg' e Hl He. rewrite H1 in Hl. injection Hl as <-.
        rewrite He. now split.
      * intros lg' ph Hl He. rewrite H1 in Hl. injection Hl as <-.
        rewrite He. now split.
  - eexists. split; [reflexivity|]. cbn.
    repeat (split; [reflexivity|]).
    split; [tauto|]. discriminate.
Qed.

Lemma host_with_catchable cuda mps ps count props meminfo names clock :
  (forall p, ps = Some p ->
     catchable (ps_virtual_memory p) /\ forall b, catchable (ps_cpu_count p b)) ->
  catchable count ->
  (forall i, catchable (props i)) ->
  probes_catchable (host_with cuda mps ps count props meminfo names clock).
Proof.
  intros H1 H2 H3. split; [exact H1|]. split; [exact H2 | exact H3].
Qed.

Lemma snapshot_records_unknown_witness :
  exists snap,
    get_system_snapshot host_cpu_fault world0 = (tick_utc world0, inr snap)
    /\ cpu_logical snap = Some 16 /\ cpu_physical snap = None
    /\ ram_total_gb snap = Some (bytes_to_gb 17179869184) /\ gpus snap = [].
Proof.
  destruct (snapshot_records_unknown host_cpu_fault world0 false)
    as (snap & Hs & _ & _ & _ & _ & Hg & _ & Hps).
  - apply host_with_catchable.
    + intros p [= <-]. split; [exact I|]. intros [|]; reflexivity.
    + exact I.
    + intros i. reflexivity.
  - reflexivity.
  - exists snap. split; [exact Hs|].
    destruct (Hps _ eq_refl) as (_ & Hram & _ & Hcpu & _).
    destruct (Hcpu (Some 16) (OSError "cannot read /proc/cpuinfo") eq_refl eq_refl)
      as [Hl Hp].
    destruct (Hram _ _ eq_refl) as [Hrt _].
    split; [exact Hl|]. split; [exact Hp|]. split.
    + exact Hrt.
    + assert (Hg0 : get_gpus host_cpu_fault = inr []) by reflexivity.
      rewrite Hg0 in Hg. now injection Hg.
Defined.

(** ** Accelerator memory statistics *)

Lemma pick_device_auto (E : env) :
  pick_device E "auto" =
  inr (if cuda_is_available E then device_cuda
       else if mps_usable E then device_mps
       else device_cpu).
Proof.
  unfold pick_device. rewrite lower_auto.
  change ("auto" =? "auto")%string with true. cbn [negb].
  destruct (cuda_is_available E); [reflexivity|].
  destruct (mps_usable E); reflexivity.
Qed.

Lemma device_names_length (E : env) (idx : list Z) (names : list json) :
  device_names E idx = inr names -> List.length names = List.length idx.
Proof.
  revert names. induction idx as [|i idx IH]; intros names; cbn [device_names].
  - now intros [= <-].
  - destruct (cuda_get_device_name E i) as [e|nm]; [discriminate|].
    destruct (device_names E idx) as [e|ns]; [discriminate|].
    intros [= <-]. cbn [List.length]. now rewrite (IH ns eq_refl).
Qed.

(** X8: the memory statistics are tagged with the backend that [auto] would
    pick; without CUDA they are always produced; with CUDA they list one name
    per counted device, and a failing [mem_get_info] is not caught: it
    raises out of [gpu_memory_stats]. *)
Theorem memory_stats_backend (E : env) :
  (forall doc, gpu_memory_stats E = inr doc ->
     exists d fields,
       doc = JDict fields
       /\ pick_device E "auto" = inr d
       /\ lookup "backend" fields = Some (JStr (str_device d)))
  /\ (cuda_is_available E = false -> exists doc, gpu_memory_stats E = inr doc)
  /\ (forall doc, cuda_is_available E = true -> gpu_memory_stats E = inr doc ->
        exists fields n names,
          doc = JDict fields
          /\ cuda_device_count E = inr n
          /\ lookup "device_count" fields = Some (JInt n)
          /\ lookup "devices" fields = Some (JList names)
          /\ List.length names = Z.to_nat n)
  /\ (forall e, cuda_is_available E = true -> cuda_mem_get_info E = inl e ->
        gpu_memory_stats E = inl e).
Proof.
  unfold gpu_memory_stats. rewrite pick_device_auto.
  destruct (cuda_is_available E).
  - split; [|split; [discriminate|split]].
    + intros doc.
      destruct (cuda_mem_get_info E) as [e|info]; [discriminate|].
      destruct (cuda_device_count E) as [e|n]; [discriminate|].
      destruct (device_names E (range n)) as [e|names]; [discriminate|].
      intros [= <-]. eexists. eexists. split; [reflexivity|].
      split; reflexivity.
    + intros doc _.
      destruct (cuda_mem_get_info E) as [e|info]; [discriminate|].
      destruct (cuda_device_count E) as [e|n]; [discriminate|].
      destruct (device_names E (range n)) as [e|names] eqn:Hn; [discriminate|].
      intros [= <-]. eexists. exists n, names.
      split; [reflexivity|]. split; [reflexivity|].
      split; [reflexivity|]. split; [reflexivity|].
      rewrite (device_names_length _ _ _ Hn). apply range_length.
    + intros e _ ->. reflexivity.
  - split; [|split; [|split; discriminate]].
    + intros doc. destruct (mps_usable E); intros [= <-];
        eexists; eexists; split; try reflexivity; split; reflexivity.
    + intros _. destruct (mps_usable E); eauto.
Qed.

Lemma memory_stats_backend_witness :
  gpu_memory_stats host_meminfo_fault = inl (RuntimeError "CUDA error: out of memory")
  /\ exists doc, gpu_memory_stats host_cpu = inr doc.
Proof.
  split.
  - apply (proj2 (proj2 (proj2 (memory_stats_backend host_meminfo_fault))));
      reflexivity.
  - apply (proj1 (proj2 (memory_stats_backend host_cpu))). reflexivity.
Defined.

(** ** Gigabytes *)

(** X9: [bytes_to_gb] yields a whole number of hundredths of a gigabyte,
    within half a hundredth of n / 1024^3; it never decreases when the byte
    count grows and is not negative for a byte count that is not. *)
Theorem bytes_to_gb_rounds (n m : Z) :
  (exists k : Z, bytes_to_gb n = (inject_Z k / 100)%Q)
  /\ (inject_Z n / inject_Z (1024 ^ 3) - (1 # 200) <= bytes_to_gb n
      <= inject_Z n / inject_Z (1024 ^ 3) + (1 # 200))%Q
  /\ (n <= m -> (bytes_to_gb n <= bytes_to_gb m)%Q)
  /\ (0 <= n -> (0 <= bytes_to_gb n)%Q).
Proof.
  assert (Hmono : forall a b, a <= b -> (bytes_to_gb a <= bytes_to_gb b)%Q).
  { intros a b Hab. unfold bytes_to_gb. apply round2_monotone.
    apply Qmult_le_compat_r; [now rewrite <- Zle_Qle | discriminate]. }
  split; [|split; [|split]].
  - unfold bytes_to_gb.
    destruct (round2_hundredths (inject_Z n / inject_Z (1024 ^ 3))) as (k & Hk & _).
    eauto.
  - unfold bytes_to_gb. apply round2_error.
  - apply Hmono.
  - intros Hn. apply Qle_trans with (bytes_to_gb 0); [discriminate|].
    now apply Hmono.
Qed.

Lemma bytes_to_gb_rounds_witness :
  (bytes_to_gb 8589934592 <= bytes_to_gb 17179869184)%Q
  /\ (0 <= bytes_to_gb 17179869184)%Q.
Proof.
  split.
  - apply (proj1 (proj2 (proj2 (bytes_to_gb_rounds 8589934592 17179869184)))). lia.
  - apply (proj2 (proj2 (proj2 (bytes_to_gb_rounds 17179869184 0)))). lia.
Defined.

(** ** The per-run records *)

Section BenchRuns.

Variable s : BenchSummary.

Lemma index_nth {A} (l : list A) (j : nat) (dflt : A) :
  (j < List.length l)%nat -> index l (Z.of_nat j) = inr (nth j l dflt).
Proof.
  intros Hj. unfold index. rewrite Nat2Z.id.
  destruct (nth_error l j) as [a|] eqn:Hn.
  - now rewrite (nth_error_nth _ _ dflt Hn).
  - apply nth_error_None in Hn. lia.
Qed.

Lemma index_out_of_range {A} (l : list A) (j : nat) :
  (List.length l <= j)%nat ->
  index l (Z.of_nat j) = inl (IndexError "list index out of range").
Proof.
  intros Hj. unfold index. rewrite Nat2Z.id.
  now rewrite (proj2 (nth_error_None l j) Hj).
Qed.

Lemma bench_runs_seq (a m : nat) :
  (a + m <= List.length (times_s s))%nat ->
  (a + m <= List.length (gflops s))%nat ->
  bench_runs s (map Z.of_nat (seq a m)) = inr (map (run_of s) (map Z.of_nat (seq a m))).
Proof.
  revert a. induction m as [|m IH]; intros a Ht Hg; [reflexivity|].
  cbn [seq map bench_runs].
  rewrite (index_nth _ a 0%Q) by lia. rewrite (index_nth _ a 0%Q) by lia.
  rewrite IH by lia. unfold run_of at 2. now rewrite Nat2Z.id.
Qed.

Lemma map_nth_all (l : list Q) :
  map (fun j => nth j l 0%Q) (seq 0 (List.length l)) = l.
Proof.
  apply nth_ext with (d := 0%Q) (d' := 0%Q).
  - now rewrite length_map, length_seq.
  - intros n Hn. rewrite length_map, length_seq in Hn.
    rewrite (nth_indep _ _ (nth 0 l 0%Q)) by now rewrite length_map, length_seq.
    change (nth 0 l 0%Q) with ((fun j => nth j l 0%Q) 0%nat).
    rewrite map_nth. now rewrite seq_nth.
Qed.

Lemma bench_runs_short (a m : nat) :
  (a <= List.length (times_s s))%nat ->
  (a <= List.length (gflops s))%nat ->
  (List.length (times_s s) < a + m)%nat \/ (List.length (gflops s) < a + m)%nat ->
  bench_runs s (map Z.of_nat (seq a m)) = inl (IndexError "list index out of range").
Proof.
  revert a. induction m as [|m IH]; intros a Ha Hg Hlt; [lia|].
  cbn [seq map bench_runs].
  destruct (Nat.eq_dec a (List.length (times_s s))) as [Het|Hne].
  - now rewrite index_out_of_range by lia.
  - rewrite (index_nth _ a 0%Q) by lia.
    destruct (Nat.eq_dec a (List.length (gflops s))) as [Heg|Hng].
    + now rewrite index_out_of_range by lia.
    + rewrite (index_nth _ a 0%Q) by lia. now rewrite IH by lia.
Qed.

End BenchRuns.

Lemma bench_runs_full (s : BenchSummary) (n : Z) :
  List.length (times_s s) = Z.to_nat n ->
  List.length (gflops s) = Z.to_nat n ->
  bench_runs s (range n) = inr (map (run_of s) (range n))
  /\ List.length (map (run_of s) (range n)) = Z.to_nat n
  /\ map run_idx (map (run_of s) (range n)) = map (fun i => i + 1) (range n)
  /\ map time_s (map (run_of s) (range n)) = times_s s
  /\ map run_gflops (map (run_of s) (range n)) = gflops s.
Proof.
  intros Ht Hg. unfold range.
  split; [apply bench_runs_seq; cbn; lia|].
  split; [now rewrite !length_map, length_seq|].
  split; [now rewrite map_map|].
  split.
  - rewrite !map_map. cbn [run_of time_s].
    rewrite <- Ht at 1. rewrite <- (map_nth_all (times_s s)) at 2.
    apply map_ext. intros j. now rewrite Nat2Z.id.
  - rewrite !map_map. cbn [run_of run_gflops].
    rewrite <- Hg at 1. rewrite <- (map_nth_all (gflops s)) at 2.
    apply map_ext. intros j. now rewrite Nat2Z.id.
Qed.

(** X10: the per-run records are built by position: when the summary holds
    as many times and throughputs as its run count, there is one record per
    trial, numbered from 1, carrying that trial's time and throughput and the
    summary's device and size; a run count beyond either list raises
    IndexError. *)
Theorem bench_runs_records (s : BenchSummary) (n : Z) :
  (List.length (times_s s) = Z.to_nat n ->
   List.length (gflops s) = Z.to_nat n ->
   exists rs,
     bench_runs s (range n) = inr rs
     /\ List.length rs = Z.to_nat n
     /\ map run_idx rs = map (fun i => i + 1) (range n)
     /\ map time_s rs = times_s s
     /\ map run_gflops rs = gflops s
     /\ Forall (fun r => run_device r = device_ s /\ run_size r = size s) rs)
  /\ ((List.length (times_s s) < Z.to_nat n)%nat
       \/ (List.length (gflops s) < Z.to_nat n)%nat ->
      bench_runs s (range n) = inl (IndexError "list index out of range")).
Proof.
  split.
  - intros Ht Hg.
    destruct (bench_runs_full s n Ht Hg) as (H1 & H2 & H3 & H4 & H5).
    exists (map (run_of s) (range n)).
    repeat (split; [assumption|]).
    apply Forall_forall. intros r Hr. apply in_map_iff in Hr.
    destruct Hr as (i & <- & _). now split.
  - intros H. unfold range. apply bench_runs_short; cbn; lia.
Qed.

Lemma bench_runs_records_witness :
  exists rs,
    bench_runs {| device_ := "cpu"; size := 128; runs := 2;
                  times_s := [1 # 64; 1 # 32]; gflops := [2 # 1; 1 # 1];
                  time_avg_s := 3 # 128; time_best_s := 1 # 64;
                  gflops_avg := 3 # 2; gflops_best := 2 # 1 |} (range 2) = inr rs
    /\ List.length rs = 2%nat
    /\ map run_idx rs = [1; 2]
    /\ map time_s rs = [1 # 64; 1 # 32]
    /\ map run_gflops rs = [2 # 1; 1 # 1]
    /\ Forall (fun r => run_device r = "cpu" /\ run_size r = 128) rs.
Proof.
  refine (proj1 (bench_runs_records _ 2) _ _); reflexivity.
Defined.

(** ** What [main] writes *)

Section Quiet.













End Quiet.





(** ** A complete run of [main] *)





Section CompleteRun.

Variable E : env.
Variable argv : args.
Variable b : bool.

Hypothesis Hdev : In (arg_device argv) device_choices.
Hypothesis Hprobes : probes_catchable E.
Hypothesis Hmps : backends_mps E = Some b.
Hypothesis Hsize : 0 <= arg_size argv.
Hypothesis Halloc : forall k d, randn_error E k d (arg_size argv) = None.
Hypothesis Hruns : 1 <= arg_runs argv.
Hypothesis Hclock :
  Forall (fun t => ~ (t == 0)%Q) (elapsed_from E 0 (Z.to_nat (arg_runs argv))).


End CompleteRun.







(** ** The key/value table *)

Section DecimalKeys.

Lemma to_int_nonnil (z : Z) : Z.to_int z <> Decimal.Pos Decimal.Nil
                              /\ Z.to_int z <> Decimal.Neg Decimal.Nil.
Proof.
  rewrite <- (DecimalZ.of_to z) at 1 2. rewrite DecimalZ.to_of.
  destruct (Z.to_int z) as [d|d]; cbn [Decimal.norm].
  - split; [|discriminate]. intros [= H]. now apply DecimalFacts.unorm_nonnil in H.
  - destruct (Decimal.nzhead d) eqn:Hd; split; discriminate.
Qed.

Lemma str_int_inj (i j : Z) : str_int i = str_int j -> i = j.
Proof.
  unfold str_int. intros H. apply DecimalZ.to_int_inj.
  apply (f_equal NilZero.int_of_string) in H.
  destruct (to_int_nonnil i) as [Hi1 Hi2]. destruct (to_int_nonnil j) as [Hj1 Hj2].
  rewrite !NilZero.isi in H by assumption. now injection H.
Qed.

Lemma uint_bracket_free (d : Decimal.uint) :
  bracket_free (NilEmpty.string_of_uint d).
Proof.
  induction d; cbn; (exact I || (split; [discriminate | assumption])).
Qed.

Lemma str_int_bracket_free (i : Z) : bracket_free (str_int i).
Proof.
  unfold str_int, NilZero.string_of_int, NilZero.string_of_uint.
  destruct (Z.to_int i) as [d|d].
  - destruct d; try apply uint_bracket_free. cbn. split; [discriminate | exact I].
  - split; [discriminate|].
    destruct d; try apply uint_bracket_free. cbn. split; [discriminate | exact I].
Qed.

Lemma bracket_split (s1 s2 r1 r2 : string) :
  bracket_free s1 -> bracket_free s2 ->
  (s1 ++ String "]" r1 = s2 ++ String "]" r2)%string ->
  s1 = s2 /\ r1 = r2.
Proof.
  revert s2. induction s1 as [|c s1 IH]; intros [|c2 s2] H1 H2 H; cbn in *.
  - injection H as ->. now split.
  - injection H as <- _. now destruct H2.
  - injection H as -> _. now destruct H1.
  - injection H as -> H. destruct H1 as [_ H1]. destruct H2 as [_ H2].
    destruct (IH s2 H1 H2 H) as [-> ->]. now split.
Qed.

Lemma gpu_key_inj (i j : Z) (f g : string) :
  gpu_key i f = gpu_key j g -> i = j /\ f = g.
Proof.
  unfold gpu_key. cbn [String.append]. intros [= H].
  change ("]." ++ f)%string with (String "]" (String "." f)) in H.
  change ("]." ++ g)%string with (String "]" (String "." g)) in H.
  apply bracket_split in H; try apply str_int_bracket_free.
  destruct H as [Hi [= Hf]]. split; [now apply str_int_inj | exact Hf].
Qed.

End DecimalKeys.

Section SystemRows.

(** The thirteen scalar entries of a snapshot, in field order. *)
Lemma asdict_snapshot_split (s : SystemSnapshot) :
  asdict_snapshot s =
  firstn 13 (asdict_snapshot s)
  ++ [("gpus", JList (map (fun g => JDict (asdict_gpu g)) (gpus s)))].
Proof. reflexivity. Qed.

Lemma scalar_rows (s : SystemSnapshot) :
  system_rows (firstn 13 (asdict_snapshot s)) = firstn 13 (asdict_snapshot s).
Proof. reflexivity. Qed.

Lemma gpu_rows_from (a : nat) (l : list GPUInfo) :
  flat_map
    (fun ig : Z * json =>
       match snd ig with
       | JDict g =>
           map (fun gkv => (("gpu[" ++ str_int (fst ig) ++ "]." ++ fst gkv)%string,
                            snd gkv)) g
       | _ => []
       end)
    (combine (map Z.of_nat (seq a (List.length (map (fun g => JDict (asdict_gpu g)) l))))
             (map (fun g => JDict (asdict_gpu g)) l))
  = flat_map (fun ig => gpu_rows (fst ig) (snd ig))
             (combine (map Z.of_nat (seq a (List.length l))) l).
Proof.
  revert a. induction l as [|g l IH]; intros a; [reflexivity|].
  cbn [map List.length seq combine flat_map fst snd].
  rewrite IH. reflexivity.
Qed.

Lemma system_rows_snapshot (s : SystemSnapshot) :
  system_rows (asdict_snapshot s) =
  firstn 13 (asdict_snapshot s)
  ++ flat_map (fun ig => gpu_rows (fst ig) (snd ig)) (enumerate (gpus s)).
Proof.
  rewrite asdict_snapshot_split at 1. unfold system_rows at 1.
  rewrite flat_map_app. fold (system_rows (firstn 13 (asdict_snapshot s))).
  rewrite scalar_rows. f_equal.
  cbn [flat_map fst snd]. change ("gpus" =? "gpus")%string with true.
  cbv beta iota. rewrite app_nil_r. unfold enumerate. apply gpu_rows_from.
Qed.

Lemma gpu_rows_keys (a : nat) (l : list GPUInfo) :
  map fst (flat_map (fun ig => gpu_rows (fst ig) (snd ig))
                    (combine (map Z.of_nat (seq a (List.length l))) l))
  = flat_map (fun i => [gpu_key i "name"; gpu_key i "memory_gb";
                        gpu_key i "capability"])
             (map Z.of_nat (seq a (List.length l))).
Proof.
  revert a. induction l as [|g l IH]; intros a; [reflexivity|].
  cbn [List.length seq map combine flat_map fst snd].
  rewrite map_app, IH. reflexivity.
Qed.

Lemma gpu_keys_nodup (idx : list Z) :
  NoDup idx ->
  NoDup (flat_map (fun i => [gpu_key i "name"; gpu_key i "memory_gb";
                             gpu_key i "capability"]) idx).
Proof.
  induction 1 as [|i idx Hni Hnd IH]; [constructor|].
  cbn [flat_map app].
  assert (Hout : forall f, ~ In (gpu_key i f)
                   (flat_map (fun i => [gpu_key i "name"; gpu_key i "memory_gb";
                                        gpu_key i "capability"]) idx)).
  { intros f Hin. apply in_flat_map in Hin. destruct Hin as (j & Hj & Hk).
    cbn [In] in Hk.
    destruct Hk as [Hk|[Hk|[Hk|[]]]]; apply gpu_key_inj in Hk;
      destruct Hk as [<- _]; contradiction. }
  constructor.
  { intros [Hk|[Hk|Hin]];
      [apply gpu_key_inj in Hk; destruct Hk as [_ Hk]; discriminate
      |apply gpu_key_inj in Hk; destruct Hk as [_ Hk]; discriminate
      |exact (Hout _ Hin)]. }
  constructor.
  { intros [Hk|Hin];
      [apply gpu_key_inj in Hk; destruct Hk as [_ Hk]; discriminate
      |exact (Hout _ Hin)]. }
  constructor; [apply Hout | exact IH].
Qed.

Lemma gpu_rows_length (a : nat) (l : list GPUInfo) :
  List.length (flat_map (fun ig => gpu_rows (fst ig) (snd ig))
                        (combine (map Z.of_nat (seq a (List.length l))) l))
  = (3 * List.length l)%nat.
Proof.
  revert a. induction l as [|g l IH]; intros a; [reflexivity|].
  cbn [List.length seq map combine flat_map fst snd].
  rewrite length_app, IH. cbn [gpu_rows asdict_gpu map List.length]. lia.
Qed.

Lemma of_nat_seq_nodup (a n : nat) : NoDup (map Z.of_nat (seq a n)).
Proof.
  revert a. induction n as [|n IH]; intros a; [constructor|].
  cbn [seq map]. constructor; [|apply IH].
  rewrite in_map_iff. intros (j & Hj & Hin). apply in_seq in Hin. lia.
Qed.

End SystemRows.

(** X15: the key/value table of a snapshot has one row per scalar field, in
    field order, then three rows per accelerator, keyed gpu[i].name,
    gpu[i].memory_gb and gpu[i].capability with i the position; no key occurs
    twice. *)
Theorem system_rows_keys (s : SystemSnapshot) :
  system_rows (asdict_snapshot s) =
    firstn 13 (asdict_snapshot s)
    ++ flat_map (fun ig => gpu_rows (fst ig) (snd ig)) (enumerate (gpus s))
  /\ List.length (system_rows (asdict_snapshot s)) = (13 + 3 * List.length (gpus s))%nat
  /\ NoDup (map fst (system_rows (asdict_snapshot s))).
Proof.
  split; [apply system_rows_snapshot|].
  rewrite system_rows_snapshot. unfold enumerate. split.
  - rewrite length_app, gpu_rows_length. reflexivity.
  - rewrite map_app, gpu_rows_keys. apply NoDup_app.
    + cbn. repeat (constructor; [cbn; intuition discriminate|]). constructor.
    + apply gpu_keys_nodup, of_nat_seq_nodup.
    + intros k Hk Hin. apply in_flat_map in Hin. destruct Hin as (i & _ & Hi).
      cbn in Hk. unfold gpu_key in Hi. cbn [In String.append] in Hi.
      intuition (subst; discriminate).
Qed.

(** ** A clock that goes backwards *)

(** X16: elapsed times are differences of wall-clock readings and are not
    checked for sign: when the clock is set back during a trial the run still
    returns, its best time is negative and a negative throughput is among
    its samples. *)
Theorem bench_accepts_negative_elapsed (E : env) (d : device) (size nruns : Z)
    (w : world) :
  alloc_ok E d size ->
  0 < size ->
  1 <= nruns ->
  Forall (fun t => ~ (t == 0)%Q) (elapsed_from E (time_calls w) (Z.to_nat nruns)) ->
  Exists (fun t => (t < 0)%Q) (elapsed_from E (time_calls w) (Z.to_nat nruns)) ->
  exists w' s,
    torch_matmul_bench E d size nruns w = (w', inr s)
    /\ (time_best_s s < 0)%Q
    /\ Exists (fun g => (g < 0)%Q) (gflops s).
Proof.
  intros Hok Hs Hr Hnz Hneg.
  destruct (bench_returns E d size nruns w Hok Hr Hnz) as (m & g & Hm & _ & _ & Hb).
  eexists. eexists. split; [exact Hb|]. cbn [time_best_s gflops].
  apply Exists_exists in Hneg. destruct Hneg as (t & Hin & Ht).
  split.
  - apply min_spec in Hm. destruct Hm as [_ Hle].
    eapply Qle_lt_trans; [apply Hle; exact Hin | exact Ht].
  - apply Exists_exists. exists (throughput size t).
    split; [now apply in_map|].
    unfold throughput.
    assert (Hd : (t * giga < 0)%Q).
    { setoid_replace 0%Q with (0 * giga)%Q by ring.
      apply Qmult_lt_compat_r; [apply giga_pos | exact Ht]. }
    assert (Ha : (0 < inject_Z (2 * size ^ 3))%Q) by now apply flops_pos.
    assert (Hi : (/ (t * giga) < 0)%Q).
    { destruct (t * giga)%Q as [[|p|p] q]; cbn in *; try discriminate.
      reflexivity. }
    unfold Qdiv. setoid_replace 0%Q with (inject_Z (2 * size ^ 3) * 0)%Q by ring.
    now apply Qmult_lt_l.
Qed.

Lemma bench_accepts_negative_elapsed_witness :
  exists w' s,
    torch_matmul_bench host_clock_step device_cpu 128 3 world0 = (w', inr s)
    /\ (time_best_s s < 0)%Q
    /\ Exists (fun g => (g < 0)%Q) (gflops s).
Proof.
  apply (bench_accepts_negative_elapsed host_clock_step device_cpu 128 3 world0).
  - split; [lia | reflexivity].
  - lia.
  - lia.
  - vm_compute. repeat constructor; discriminate.
  - vm_compute. apply Exists_cons_tl. apply Exists_cons_hd. reflexivity.
Defined.

Lemma bench_cuda_trace_witness :
  exists w' s evs,
    torch_matmul_bench host_two_gpus device_cuda 128 3 world0 = (w', inr s)
    /\ trace w' = trace world0 ++ evs
    /\ evs = [EvRandn device_cuda 128; EvRandn device_cuda 128;
              EvMatmul; EvCudaSynchronize; EvMatmul; EvCudaSynchronize]
             ++ List.concat (repeat [EvTime; EvMatmul; EvCudaSynchronize; EvTime] 3)
    /\ barrier_after_each_matmul evs = true
    /\ List.length (filter is_matmul evs) = 5%nat
    /\ List.length (filter is_time evs) = 6%nat.
Proof.
  apply (bench_cuda_trace host_two_gpus device_cuda 128 3 world0).
  - reflexivity.
  - split; [lia | reflexivity].
  - lia.
  - vm_compute. repeat constructor; discriminate.
Defined.

(** ** A torch without the mps backend *)



